(** * Scene rendering pipeline of the CS-330 tabletop scene

    A shallow embedding of [SceneManager.cpp], [ShaderManager.cpp] and
    [fragmentShader.glsl]: the texture and material registries, the
    transform and uniform dispatcher, the shadow-map set-up, the two render
    passes, shader loading and the fragment shading function.

    Conventions.
    - C++ [int] and [GLuint] values are [Z]; array indices are converted
      with [Z.to_nat] where a C array is indexed.
    - [float] arithmetic, GLM and the GLSL built-ins are external to the
      repository: they are taken as an interface ([Glm], [Glsl]) and every
      result holds for all implementations of it.
    - member functions thread the object and the OpenGL context through a
      state-and-failure monad; [None] is undefined behaviour of the C++
      program (a null dereference, a write past the end of an array). *)

From Stdlib Require Import ZArith Lia.
From stdpp Require Import gmap strings pretty list fin_maps.

(** ** Numbers, vectors and the GLM interface *)

Record vec2 (F : Type) := Vec2 { v2x : F; v2y : F }.
Record vec3 (F : Type) := Vec3 { v3x : F; v3y : F; v3z : F }.
Record vec4 (F : Type) := Vec4 { v4x : F; v4y : F; v4z : F; v4w : F }.
Arguments Vec2 {F} _ _.
Arguments Vec3 {F} _ _ _.
Arguments Vec4 {F} _ _ _ _.
Arguments v2x {F} _.
Arguments v2y {F} _.
Arguments v3x {F} _.
Arguments v3y {F} _.
Arguments v3z {F} _.
Arguments v4x {F} _.
Arguments v4y {F} _.
Arguments v4z {F} _.
Arguments v4w {F} _.

(** The C++ side only moves [float]s around, adds and multiplies a few of
    them and hands them to GLM.  [flit m e] is the literal written
    [m * 10^-e] in the source ([0.385f] is [flit 385 3]); two occurrences of
    the same literal text are the same value. *)
Class Glm := {
  float : Type;
  mat4 : Type;
  flit : Z → nat → float;
  float_of_int : Z → float;
  fadd : float → float → float;
  fmul : float → float → float;
  fdiv : float → float → float;
  glm_radians : float → float;
  glm_cos : float → float;
  glm_scale : vec3 float → mat4;
  glm_rotate : float → vec3 float → mat4;
  glm_translate : vec3 float → mat4;
  mat4_mul : mat4 → mat4 → mat4;
}.

Declare Scope glm_scope.
Delimit Scope glm_scope with glm.
Infix "*m" := mat4_mul (at level 40, left associativity) : glm_scope.
Infix "+f" := fadd (at level 50, left associativity) : glm_scope.
Infix "*f" := fmul (at level 40, left associativity) : glm_scope.
Infix "/f" := fdiv (at level 40, left associativity) : glm_scope.
Local Open Scope glm_scope.

(** [glm::vec3(s)]: the same scalar in the three components. *)
Definition vec3_splat `{Glm} (s : float) : vec3 float := Vec3 s s s.

(** ** Materials *)

Record OBJECT_MATERIAL `{Glm} := {
  tag : string;
  ambientColor : vec3 float;
  ambientStrength : float;
  diffuseColor : vec3 float;
  specularColor : vec3 float;
  shininess : float;
}.

Section Materials.
Context `{Glm}.

(** The five assignments of the loop body: every field but the tag is
    copied into the caller's object. *)
Definition copy_material (src dst : OBJECT_MATERIAL) : OBJECT_MATERIAL :=
  {| tag := tag dst;
     ambientColor := ambientColor src;
     ambientStrength := ambientStrength src;
     diffuseColor := diffuseColor src;
     specularColor := specularColor src;
     shininess := shininess src |}.

(** The [while ((index < size) && (bFound == false))] loop, run on the
    elements from [index] on: the result is the final [bFound] and the
    caller's object. *)
Fixpoint FindMaterial_scan (rest : list OBJECT_MATERIAL) (t : string)
    (material : OBJECT_MATERIAL) : bool * OBJECT_MATERIAL :=
  match rest with
  | [] => (false, material)
  | m :: rest' =>
      if decide (tag m = t) then (true, copy_material m material)
      else FindMaterial_scan rest' t material
  end.

(** [SceneManager::FindMaterial]: the value returned and the object the
    reference parameter designates afterwards. *)
Definition FindMaterial (m_objectMaterials : list OBJECT_MATERIAL)
    (t : string) (material : OBJECT_MATERIAL) : bool * OBJECT_MATERIAL :=
  if (length m_objectMaterials =? 0)%nat then (false, material)
  else
    let '(bFound, material') := FindMaterial_scan m_objectMaterials t material in
    (true, material').

(** What the header comment promises: true exactly when a material was
    found.  This is [FindMaterial] with [return(bFound)] as last line. *)
Definition FindMaterial_documented (m_objectMaterials : list OBJECT_MATERIAL)
    (t : string) (material : OBJECT_MATERIAL) : bool * OBJECT_MATERIAL :=
  if (length m_objectMaterials =? 0)%nat then (false, material)
  else FindMaterial_scan m_objectMaterials t material.

End Materials.

(** ** The scene manager and the OpenGL context *)

(** A value held by a shader uniform.  [setIntValue(name, true)] stores the
    integer 1. *)
Inductive UniformValue `{Glm} :=
| UInt (i : Z)
| UFloat (f : float)
| UVec2 (v : vec2 float)
| UVec3 (v : vec3 float)
| UVec4 (v : vec4 float)
| UMat4 (m : mat4)
| USampler2D (texunit : Z).

(** Modelled from the spec: [ShaderManager.h] is not part of the sources;
    the shader program is "typed uniform setters keyed by uniform name", so
    a manager is its program handle and the table from uniform names to the
    values last set. *)
Record ShaderManager `{Glm} := {
  m_programID : Z;
  uniforms : gmap string UniformValue;
}.

(** One entry of [m_textureIDs] (the member [tag] is [tex_tag] here, the
    name [tag] being the material's). *)
Record TEXTURE_INFO := { tex_tag : string; ID : Z }.

(** What [stbi_load] reports about a decoded file. *)
Record image := { width : Z; height : Z; colorChannels : Z }.

Inductive shader := MainShader | DepthShader.
Inductive mesh := PlaneMesh | CylinderMesh | TorusMesh | BoxMesh | ConeMesh.

#[global] Instance shader_eq_dec : EqDecision shader.
Proof. solve_decision. Defined.
#[global] Instance mesh_eq_dec : EqDecision mesh.
Proof. solve_decision. Defined.

(** A draw call as the GPU sees it: the mesh, the program in use and the
    ["model"] uniform of that program at the time of the call. *)
Record draw `{Glm} := {
  draw_mesh : mesh;
  draw_program : option shader;
  draw_model : option UniformValue;
}.

(** The members of [SceneManager] the functions below touch (the two shader
    managers stand where the pointers are: [None] is [nullptr]), the part of
    the OpenGL context they act on, and the process environment.
    - [gl_names] is the supply of object names of the driver: the [n]-th
      [glGen*] call returns [gl_names n];
    - [gl_texture_binding] maps a texture unit to the 2D texture bound to it;
    - [gl_framebuffer_complete n] is what [glCheckFramebufferStatus] answers
      while framebuffer [n] is bound (0 is the default framebuffer);
    - [gl_draws] is the sequence of draw calls issued so far;
    - [stbi_files] holds the files [stbi_load] can decode. *)
Record World `{Glm} := {
  m_pShaderManager : option ShaderManager;
  m_pDepthShaderManager : option ShaderManager;
  m_textureIDs : list TEXTURE_INFO;
  m_loadedTextures : Z;
  m_objectMaterials : list OBJECT_MATERIAL;
  m_shadowMapFBO : Z;
  m_shadowMap : Z;
  gl_names : nat → Z;
  gl_generated : nat;
  gl_active_texture : Z;
  gl_texture_binding : gmap Z Z;
  gl_framebuffer_binding : Z;
  gl_framebuffer_complete : Z → bool;
  gl_program : option shader;
  gl_draws : list draw;
  stbi_files : gmap string image;
  cerr : list string;
}.

Section Scene.
Context `{Glm}.
Local Open Scope Z_scope.

Definition set_m_pShaderManager (v : option ShaderManager) (w : World) : World :=
  {| m_pShaderManager := v; m_pDepthShaderManager := m_pDepthShaderManager w;
     m_textureIDs := m_textureIDs w; m_loadedTextures := m_loadedTextures w;
     m_objectMaterials := m_objectMaterials w;
     m_shadowMapFBO := m_shadowMapFBO w; m_shadowMap := m_shadowMap w;
     gl_names := gl_names w; gl_generated := gl_generated w;
     gl_active_texture := gl_active_texture w;
     gl_texture_binding := gl_texture_binding w;
     gl_framebuffer_binding := gl_framebuffer_binding w;
     gl_framebuffer_complete := gl_framebuffer_complete w;
     gl_program := gl_program w; gl_draws := gl_draws w;
     stbi_files := stbi_files w; cerr := cerr w |}.

Definition set_m_pDepthShaderManager (v : option ShaderManager) (w : World) : World :=
  {| m_pShaderManager := m_pShaderManager w; m_pDepthShaderManager := v;
     m_textureIDs := m_textureIDs w; m_loadedTextures := m_loadedTextures w;
     m_objectMaterials := m_objectMaterials w;
     m_shadowMapFBO := m_shadowMapFBO w; m_shadowMap := m_shadowMap w;
     gl_names := gl_names w; gl_generated := gl_generated w;
     gl_active_texture := gl_active_texture w;
     gl_texture_binding := gl_texture_binding w;
     gl_framebuffer_binding := gl_framebuffer_binding w;
     gl_framebuffer_complete := gl_framebuffer_complete w;
     gl_program := gl_program w; gl_draws := gl_draws w;
     stbi_files := stbi_files w; cerr := cerr w |}.

Definition set_m_textureIDs (v : list TEXTURE_INFO) (w : World) : World :=
  {| m_pShaderManager := m_pShaderManager w;
     m_pDepthShaderManager := m_pDepthShaderManager w; m_textureIDs := v;
     m_loadedTextures := m_loadedTextures w;
     m_objectMaterials := m_objectMaterials w;
     m_shadowMapFBO := m_shadowMapFBO w; m_shadowMap := m_shadowMap w;
     gl_names := gl_names w; gl_generated := gl_generated w;
     gl_active_texture := gl_active_texture w;
     gl_texture_binding := gl_texture_binding w;
     gl_framebuffer_binding := gl_framebuffer_binding w;
     gl_framebuffer_complete := gl_framebuffer_complete w;
     gl_program := gl_program w; gl_draws := gl_draws w;
     stbi_files := stbi_files w; cerr := cerr w |}.

Definition set_m_loadedTextures (v : Z) (w : World) : World :=
  {| m_pShaderManager := m_pShaderManager w;
     m_pDepthShaderManager := m_pDepthShaderManager w;
     m_textureIDs := m_textureIDs w; m_loadedTextures := v;
     m_objectMaterials := m_objectMaterials w;
     m_shadowMapFBO := m_shadowMapFBO w; m_shadowMap := m_shadowMap w;
     gl_names := gl_names w; gl_generated := gl_generated w;
     gl_active_texture := gl_active_texture w;
     gl_texture_binding := gl_texture_binding w;
     gl_framebuffer_binding := gl_framebuffer_binding w;
     gl_framebuffer_complete := gl_framebuffer_complete w;
     gl_program := gl_program w; gl_draws := gl_draws w;
     stbi_files := stbi_files w; cerr := cerr w |}.

Definition set_m_objectMaterials (v : list OBJECT_MATERIAL) (w : World) : World :=
  {| m_pShaderManager := m_pShaderManager w;
     m_pDepthShaderManager := m_pDepthShaderManager w;
     m_textureIDs := m_textureIDs w; m_loadedTextures := m_loadedTextures w;
     m_objectMaterials := v; m_shadowMapFBO := m_shadowMapFBO w;
     m_shadowMap := m_shadowMap w; gl_names := gl_names w;
     gl_generated := gl_generated w;
     gl_active_texture := gl_active_texture w;
     gl_texture_binding := gl_texture_binding w;
     gl_framebuffer_binding := gl_framebuffer_binding w;
     gl_framebuffer_complete := gl_framebuffer_complete w;
     gl_program := gl_program w; gl_draws := gl_draws w;
     stbi_files := stbi_files w; cerr := cerr w |}.

Definition set_m_shadowMapFBO (v : Z) (w : World) : World :=
  {| m_pShaderManager := m_pShaderManager w;
     m_pDepthShaderManager := m_pDepthShaderManager w;
     m_textureIDs := m_textureIDs w; m_loadedTextures := m_loadedTextures w;
     m_objectMaterials := m_objectMaterials w; m_shadowMapFBO := v;
     m_shadowMap := m_shadowMap w; gl_names := gl_names w;
     gl_generated := gl_generated w;
     gl_active_texture := gl_active_texture w;
     gl_texture_binding := gl_texture_binding w;
     gl_framebuffer_binding := gl_framebuffer_binding w;
     gl_framebuffer_complete := gl_framebuffer_complete w;
     gl_program := gl_program w; gl_draws := gl_draws w;
     stbi_files := stbi_files w; cerr := cerr w |}.

Definition set_m_shadowMap (v : Z) (w : World) : World :=
  {| m_pShaderManager := m_pShaderManager w;
     m_pDepthShaderManager := m_pDepthShaderManager w;
     m_textureIDs := m_textureIDs w; m_loadedTextures := m_loadedTextures w;
     m_objectMaterials := m_objectMaterials w;
     m_shadowMapFBO := m_shadowMapFBO w; m_shadowMap := v;
     gl_names := gl_names w; gl_generated := gl_generated w;
     gl_active_texture := gl_active_texture w;
     gl_texture_binding := gl_texture_binding w;
     gl_framebuffer_binding := gl_framebuffer_binding w;
     gl_framebuffer_complete := gl_framebuffer_complete w;
     gl_program := gl_program w; gl_draws := gl_draws w;
     stbi_files := stbi_files w; cerr := cerr w |}.

Definition set_gl_generated (v : nat) (w : World) : World :=
  {| m_pShaderManager := m_pShaderManager w;
     m_pDepthShaderManager := m_pDepthShaderManager w;
     m_textureIDs := m_textureIDs w; m_loadedTextures := m_loadedTextures w;
     m_objectMaterials := m_objectMaterials w;
     m_shadowMapFBO := m_shadowMapFBO w; m_shadowMap := m_shadowMap w;
     gl_names := gl_names w; gl_generated := v;
     gl_active_texture := gl_active_texture w;
     gl_texture_binding := gl_texture_binding w;
     gl_framebuffer_binding := gl_framebuffer_binding w;
     gl_framebuffer_complete := gl_framebuffer_complete w;
     gl_program := gl_program w; gl_draws := gl_draws w;
     stbi_files := stbi_files w; cerr := cerr w |}.

Definition set_gl_active_texture (v : Z) (w : World) : World :=
  {| m_pShaderManager := m_pShaderManager w;
     m_pDepthShaderManager := m_pDepthShaderManager w;
     m_textureIDs := m_textureIDs w; m_loadedTextures := m_loadedTextures w;
     m_objectMaterials := m_objectMaterials w;
     m_shadowMapFBO := m_shadowMapFBO w; m_shadowMap := m_shadowMap w;
     gl_names := gl_names w; gl_generated := gl_generated w;
     gl_active_texture := v; gl_texture_binding := gl_texture_binding w;
     gl_framebuffer_binding := gl_framebuffer_binding w;
     gl_framebuffer_complete := gl_framebuffer_complete w;
     gl_program := gl_program w; gl_draws := gl_draws w;
     stbi_files := stbi_files w; cerr := cerr w |}.

Definition set_gl_texture_binding (v : gmap Z Z) (w : World) : World :=
  {| m_pShaderManager := m_pShaderManager w;
     m_pDepthShaderManager := m_pDepthShaderManager w;
     m_textureIDs := m_textureIDs w; m_loadedTextures := m_loadedTextures w;
     m_objectMaterials := m_objectMaterials w;
     m_shadowMapFBO := m_shadowMapFBO w; m_shadowMap := m_shadowMap w;
     gl_names := gl_names w; gl_generated := gl_generated w;
     gl_active_texture := gl_active_texture w; gl_texture_binding := v;
     gl_framebuffer_binding := gl_framebuffer_binding w;
     gl_framebuffer_complete := gl_framebuffer_complete w;
     gl_program := gl_program w; gl_draws := gl_draws w;
     stbi_files := stbi_files w; cerr := cerr w |}.

Definition set_gl_framebuffer_binding (v : Z) (w : World) : World :=
  {| m_pShaderManager := m_pShaderManager w;
     m_pDepthShaderManager := m_pDepthShaderManager w;
     m_textureIDs := m_textureIDs w; m_loadedTextures := m_loadedTextures w;
     m_objectMaterials := m_objectMaterials w;
     m_shadowMapFBO := m_shadowMapFBO w; m_shadowMap := m_shadowMap w;
     gl_names := gl_names w; gl_generated := gl_generated w;
     gl_active_texture := gl_active_texture w;
     gl_texture_binding := gl_texture_binding w; gl_framebuffer_binding := v;
     gl_framebuffer_complete := gl_framebuffer_complete w;
     gl_program := gl_program w; gl_draws := gl_draws w;
     stbi_files := stbi_files w; cerr := cerr w |}.

Definition set_gl_program (v : option shader) (w : World) : World :=
  {| m_pShaderManager := m_pShaderManager w;
     m_pDepthShaderManager := m_pDepthShaderManager w;
     m_textureIDs := m_textureIDs w; m_loadedTextures := m_loadedTextures w;
     m_objectMaterials := m_objectMaterials w;
     m_shadowMapFBO := m_shadowMapFBO w; m_shadowMap := m_shadowMap w;
     gl_names := gl_names w; gl_generated := gl_generated w;
     gl_active_texture := gl_active_texture w;
     gl_texture_binding := gl_texture_binding w;
     gl_framebuffer_binding := gl_framebuffer_binding w;
     gl_framebuffer_complete := gl_framebuffer_complete w; gl_program := v;
     gl_draws := gl_draws w; stbi_files := stbi_files w; cerr := cerr w |}.

Definition set_gl_draws (v : list draw) (w : World) : World :=
  {| m_pShaderManager := m_pShaderManager w;
     m_pDepthShaderManager := m_pDepthShaderManager w;
     m_textureIDs := m_textureIDs w; m_loadedTextures := m_loadedTextures w;
     m_objectMaterials := m_objectMaterials w;
     m_shadowMapFBO := m_shadowMapFBO w; m_shadowMap := m_shadowMap w;
     gl_names := gl_names w; gl_generated := gl_generated w;
     gl_active_texture := gl_active_texture w;
     gl_texture_binding := gl_texture_binding w;
     gl_framebuffer_binding := gl_framebuffer_binding w;
     gl_framebuffer_complete := gl_framebuffer_complete w;
     gl_program := gl_program w; gl_draws := v; stbi_files := stbi_files w;
     cerr := cerr w |}.

Definition set_cerr (v : list string) (w : World) : World :=
  {| m_pShaderManager := m_pShaderManager w;
     m_pDepthShaderManager := m_pDepthShaderManager w;
     m_textureIDs := m_textureIDs w; m_loadedTextures := m_loadedTextures w;
     m_objectMaterials := m_objectMaterials w;
     m_shadowMapFBO := m_shadowMapFBO w; m_shadowMap := m_shadowMap w;
     gl_names := gl_names w; gl_generated := gl_generated w;
     gl_active_texture := gl_active_texture w;
     gl_texture_binding := gl_texture_binding w;
     gl_framebuffer_binding := gl_framebuffer_binding w;
     gl_framebuffer_complete := gl_framebuffer_complete w;
     gl_program := gl_program w; gl_draws := gl_draws w;
     stbi_files := stbi_files w; cerr := v |}.

(** *** The state-and-failure monad *)

Definition M (A : Type) : Type := World → option (A * World).

Definition ret {A} (a : A) : M A := λ w, Some (a, w).
Definition bind {A B} (c : M A) (k : A → M B) : M B :=
  λ w, match c w with Some (a, w') => k a w' | None => None end.
Definition undefined {A} : M A := λ _, None.
Definition gets {A} (f : World → A) : M A := λ w, Some (f w, w).
Definition modify (f : World → World) : M unit := λ w, Some (tt, f w).

#[global] Instance M_ret : MRet M := @ret.
#[global] Instance M_bind : MBind M := λ A B k c, bind c k.

(** [for (int i = 0; i < n; ++i) body(i)], on the list of the values of
    [i]. *)
Fixpoint for_each (l : list Z) (body : Z → M unit) : M unit :=
  match l with
  | [] => mret tt
  | i :: l' => body i;; for_each l' body
  end.

Definition for_range (n : Z) (body : Z → M unit) : M unit :=
  for_each (seqZ 0 n) body.

(** *** OpenGL calls *)

Definition glGen : M Z :=
  n ← gets gl_generated;
  names ← gets gl_names;
  modify (set_gl_generated (S n));;
  mret (names n).

(** [glActiveTexture(GL_TEXTURE0 + texunit)]. *)
Definition glActiveTexture (texunit : Z) : M unit :=
  modify (set_gl_active_texture texunit).

(** [glBindTexture(GL_TEXTURE_2D, texture)]: binds on the active unit. *)
Definition glBindTexture (texture : Z) : M unit :=
  modify (λ w, set_gl_texture_binding
                 (<[gl_active_texture w := texture]> (gl_texture_binding w)) w).

(** [glBindFramebuffer(GL_FRAMEBUFFER, framebuffer)]. *)
Definition glBindFramebuffer (framebuffer : Z) : M unit :=
  modify (set_gl_framebuffer_binding framebuffer).

(** [glCheckFramebufferStatus(GL_FRAMEBUFFER) == GL_FRAMEBUFFER_COMPLETE]:
    the status of the framebuffer bound at the time of the call. *)
Definition glCheckFramebufferStatus_complete : M bool :=
  gets (λ w, gl_framebuffer_complete w (gl_framebuffer_binding w)).

(** Calls that act on state no function of the scene manager reads back
    (texture storage and sampling parameters, viewport, clears, culling,
    attachments and draw buffers of a framebuffer object). *)
Definition gl_untracked : M unit := mret tt.

Definition print_cerr (line : string) : M unit :=
  modify (λ w, set_cerr (cerr w ++ [line]) w).

(** *** Shader managers behind the two pointers

    Modelled from the spec: the member functions of [ShaderManager] used
    here ([use] and the [setXValue] family) are declared in the absent
    [ShaderManager.h]; [use] makes the manager's program the current one and
    a setter stores the value under the uniform's name. *)

Definition manager (s : shader) (w : World) : option ShaderManager :=
  match s with
  | MainShader => m_pShaderManager w
  | DepthShader => m_pDepthShaderManager w
  end.

Definition set_manager (s : shader) (v : option ShaderManager) : World → World :=
  match s with
  | MainShader => set_m_pShaderManager v
  | DepthShader => set_m_pDepthShaderManager v
  end.

(** [p->setXValue(name, value)]: undefined when [p] is null. *)
Definition setUniform (s : shader) (name : string) (value : UniformValue) : M unit :=
  λ w, match manager s w with
       | Some sm =>
           Some (tt, set_manager s
                       (Some {| m_programID := m_programID sm;
                                uniforms := <[name := value]> (uniforms sm) |}) w)
       | None => None
       end.

(** [p->use()]. *)
Definition use (s : shader) : M unit :=
  λ w, match manager s w with
       | Some _ => Some (tt, set_gl_program (Some s) w)
       | None => None
       end.

(** Modelled from the spec: [m_basicMeshes->DrawXMesh()] of the absent
    [ShapeMeshes] issues the draw call of mesh kind [k] ("draw mesh kind K"
    with no further parameter); the call is recorded with what the program
    in use holds as ["model"]. *)
Definition DrawMesh (k : mesh) : M unit :=
  modify (λ w,
    let model := match gl_program w with
                 | Some s => sm ← manager s w; uniforms sm !! "model"
                 | None => None
                 end in
    set_gl_draws (gl_draws w ++ [{| draw_mesh := k; draw_program := gl_program w;
                                    draw_model := model |}]) w).

(** *** Uniform names and scene constants *)

Definition g_ModelName : string := "model".
Definition g_ColorValueName : string := "objectColor".
Definition g_TextureValueName : string := "objectTexture".
Definition g_UseTextureName : string := "bUseTexture".
Definition g_UseLightingName : string := "bUseLighting".

Definition DESK_TEXTURE : string := "deskTexture".
Definition LAPTOP_TEXTURE : string := "laptopTex".
Definition SCREEN_TEXTURE : string := "screenTex".
Definition MUG_TEXTURE : string := "mugTex".
Definition HANDLE_TEXTURE : string := "handleTex".
Definition FLOOR_TEXTURE : string := "floorTex".
Definition WALL_TEXTURE : string := "wallTex".
Definition LAMP_SHADE_TEXTURE : string := "lampShadeTex".
Definition LAMP_BASE_TEXTURE : string := "lampBaseTex".

Definition DRAMATIC_LIGHT_POSITION := Vec3 (flit 20 1) (flit 80 1) (flit (-30) 1).
Definition DRAMATIC_LIGHT_DIRECTION := Vec3 (flit (-3) 1) (flit (-10) 1) (flit 4 1).
Definition ACCENT_LIGHT_POSITION := Vec3 (flit (-50) 1) (flit 60 1) (flit 80 1).
Definition ACCENT_LIGHT_AMBIENT := Vec3 (flit 1 1) (flit 1 1) (flit 3 1).
Definition ACCENT_LIGHT_DIFFUSE := Vec3 (flit 3 1) (flit 5 1) (flit 10 1).
Definition ACCENT_LIGHT_SPECULAR := Vec3 (flit 5 1) (flit 7 1) (flit 10 1).

Definition DESK_SCALE := Vec3 (flit 380 1) (flit 475 3) (flit 2375 2).
Definition DESK_POSITION := Vec3 (flit 0 1) (flit (-5) 1) (flit (-50) 1).
Definition DESK_ROTATION := Vec3 (flit 0 1) (flit 0 1) (flit 0 1).

Definition MUG_BODY_SCALE := Vec3 (flit 575 3) (flit 1725 3) (flit 575 3).
Definition MUG_BODY_POSITION := Vec3 (flit 50 1) (flit 75 2) (flit (-20) 1).
Definition MUG_BODY_ROTATION := Vec3 (flit 150 1) (flit 200 1) (flit 0 1).

Definition MUG_HANDLE_SCALE := Vec3 (flit 36225 5) (flit 36225 5) (flit 36225 5).
Definition MUG_HANDLE_POSITION := Vec3 (flit 55 1) (flit 15 1) (flit (-20) 1).
Definition MUG_HANDLE_ROTATION := Vec3 (flit 0 1) (flit 0 1) (flit 900 1).

Definition LAPTOP_BASE_SCALE := Vec3 (flit 66 1) (flit 11 2) (flit 44 1).
Definition LAPTOP_BASE_POSITION := Vec3 (flit 0 1) (flit 88 2) (flit (-55) 2).
Definition LAPTOP_BASE_ROTATION := Vec3 (flit 0 1) (flit 0 1) (flit 0 1).

Definition LAPTOP_SCREEN_SCALE := Vec3 (flit 66 1) (flit 33 1) (flit 11 2).
Definition LAPTOP_SCREEN_POSITION := Vec3 (flit 0 1) (flit 176 2) (flit (-22) 1).
Definition LAPTOP_SCREEN_ROTATION := Vec3 (flit (-450) 1) (flit 0 1) (flit 0 1).

Definition DISPLAY_PANEL_SCALE := Vec3 (flit 605 2) (flit 308 2) (flit 55 3).
Definition DISPLAY_PANEL_POSITION := Vec3 (flit 0 1) (flit 176 2) (flit (-2145) 3).
Definition DISPLAY_PANEL_ROTATION := Vec3 (flit (-450) 1) (flit 0 1) (flit 0 1).

Definition LAMP_BASE_SCALE := Vec3 (flit 10 1) (flit 4 1) (flit 10 1).
Definition LAMP_BASE_POSITION := Vec3 (flit (-60) 1) (flit 2 1) (flit 20 1).
Definition LAMP_BASE_ROTATION := Vec3 (flit 0 1) (flit 0 1) (flit 0 1).

Definition LAMP_SHADE_SCALE := Vec3 (flit 14 1) (flit 12 1) (flit 14 1).
Definition LAMP_SHADE_POSITION := Vec3 (flit (-60) 1) (flit 25 1) (flit 20 1).
Definition LAMP_SHADE_ROTATION := Vec3 (flit 0 1) (flit 0 1) (flit 0 1).

Definition LAMP_STEM_SCALE := Vec3 (flit 12 2) (flit 28 1) (flit 12 2).
Definition LAMP_STEM_POSITION := Vec3 (flit (-60) 1) (flit 5 1) (flit 20 1).
Definition LAMP_STEM_ROTATION := Vec3 (flit 0 1) (flit 0 1) (flit 0 1).

Definition FLOOR_SCALE := Vec3 (flit 624 1) (flit 13 2) (flit 325 1).
Definition FLOOR_POSITION := Vec3 (flit 0 1) (flit (-50) 1) (flit (-50) 1).
Definition FLOOR_ROTATION := Vec3 (flit 0 1) (flit 0 1) (flit 0 1).

Definition WALL_SCALE := Vec3 (flit 624 1) (flit 260 1) (flit 65 2).
Definition WALL_POSITION_OFFSET := Vec3 (flit 0 1) (flit 0 1) (flit (-2125) 2).
Definition WALL_ROTATION := Vec3 (flit 0 1) (flit 0 1) (flit 0 1).

Definition KEY_WIDTH := flit 385 3.
Definition KEY_HEIGHT := flit 11 2.
Definition KEY_DEPTH := flit 33 2.
Definition KEY_ROWS : Z := 5.
Definition KEY_COLS : Z := 12.
Definition KEY_SPACING := flit 55 3.
Definition KEY_START_X := flit (-231) 2.
Definition KEY_Y := flit 902 3.
Definition KEY_START_Z := flit (-11) 1.
Definition KEY_COLOR := Vec3 (flit 15 2) (flit 15 2) (flit 15 2).

Definition DRAMATIC_AMBIENT_STRENGTH := flit 5 2.
Definition METAL_AMBIENT_STRENGTH := flit 3 2.
Definition STANDARD_AMBIENT_STRENGTH := flit 5 2.
Definition WOOD_SHININESS := flit 320 1.
Definition CERAMIC_SHININESS := flit 1280 1.
Definition METAL_SHININESS := flit 2560 1.
Definition STONE_SHININESS := flit 640 1.

Definition WOOD_AMBIENT_COLOR := Vec3 (flit 10 1) (flit 9 1) (flit 7 1).
Definition WOOD_DIFFUSE_COLOR := Vec3 (flit 10 1) (flit 9 1) (flit 6 1).
Definition WOOD_SPECULAR_COLOR := Vec3 (flit 5 1) (flit 5 1) (flit 5 1).
Definition CERAMIC_AMBIENT_COLOR := Vec3 (flit 9 1) (flit 9 1) (flit 10 1).
Definition CERAMIC_DIFFUSE_COLOR := Vec3 (flit 8 1) (flit 8 1) (flit 9 1).
Definition CERAMIC_SPECULAR_COLOR := Vec3 (flit 10 1) (flit 10 1) (flit 10 1).
Definition METAL_AMBIENT_COLOR := Vec3 (flit 3 1) (flit 3 1) (flit 3 1).
Definition METAL_DIFFUSE_COLOR := Vec3 (flit 4 1) (flit 4 1) (flit 4 1).
Definition METAL_SPECULAR_COLOR := Vec3 (flit 7 1) (flit 7 1) (flit 7 1).
Definition STONE_AMBIENT_COLOR := Vec3 (flit 3 1) (flit 3 1) (flit 3 1).
Definition STONE_DIFFUSE_COLOR := Vec3 (flit 6 1) (flit 6 1) (flit 6 1).
Definition STONE_SPECULAR_COLOR := Vec3 (flit 3 1) (flit 3 1) (flit 3 1).
Definition DEFAULT_COLOR := Vec3 (flit 10 1) (flit 10 1) (flit 10 1).

Definition DRAMATIC_LIGHT_INTENSITY := flit 250 1.
Definition TIGHT_SPOTLIGHT_INNER := flit 150 1.
Definition TIGHT_SPOTLIGHT_OUTER := flit 250 1.

Definition DEFAULT_UV_SCALE := Vec2 (flit 10 1) (flit 10 1).
Definition LAPTOP_UV_SCALE := Vec2 (flit 20 1) (flit 20 1).
Definition WALL_UV_SCALE := Vec2 (flit 20 1) (flit 20 1).
Definition FLOOR_UV_SCALE := Vec2 (flit 40 1) (flit 40 1).

Definition FLOOR_Y := flit (-50) 1.
Definition FLOOR_HEIGHT := flit 13 2.

(** *** Texture registry *)

(** [m_textureIDs[i]] as an rvalue and as an lvalue.  The array has the
    length the constructor gave it; an index outside it is undefined
    behaviour. *)
Definition texture_at (i : Z) : M TEXTURE_INFO :=
  λ w, if decide (0 ≤ i)%Z
       then info ← m_textureIDs w !! Z.to_nat i; Some (info, w)
       else None.

Definition texture_assign (i : Z) (f : TEXTURE_INFO → TEXTURE_INFO) : M unit :=
  info ← texture_at i;
  modify (λ w, set_m_textureIDs (<[Z.to_nat i := f info]> (m_textureIDs w)) w).

Definition empty_slot : TEXTURE_INFO := {| tex_tag := "/0"; ID := -1 |}.

(** [SceneManager::SceneManager]: the members the constructor sets. *)
Definition SceneManager_new (pShaderManager : option ShaderManager)
    (w : World) : World :=
  set_m_loadedTextures 0
    (set_m_textureIDs (replicate 16%nat empty_slot)
       (set_m_objectMaterials [] (set_m_pShaderManager pShaderManager w))).

Definition stbi_load (filename : string) : M (option image) :=
  gets (λ w, stbi_files w !! filename).

(** [SceneManager::CreateGLTexture].  ([stbi_set_flip_vertically_on_load]
    only affects the pixels handed to the driver.) *)
Definition CreateGLTexture (filename : string) (t : string) : M bool :=
  loaded ← stbi_load filename;
  match loaded with
  | Some img =>
      textureID ← glGen;
      glBindTexture textureID;;
      gl_untracked;;                       (* glTexParameteri, four times *)
      supported ←
        (if decide (colorChannels img = 3)
         then gl_untracked;; mret true     (* glTexImage2D, GL_RGB8 *)
         else if decide (colorChannels img = 4)
         then gl_untracked;; mret true     (* glTexImage2D, GL_RGBA8 *)
         else mret false);                 (* stbi_image_free; return false *)
      if supported : bool then
        gl_untracked;;                     (* glGenerateMipmap, stbi_image_free *)
        glBindTexture 0;;
        n ← gets m_loadedTextures;
        texture_assign n (λ info, {| tex_tag := tex_tag info; ID := textureID |});;
        n ← gets m_loadedTextures;
        texture_assign n (λ info, {| tex_tag := t; ID := ID info |});;
        modify (λ w, set_m_loadedTextures (m_loadedTextures w + 1) w);;
        mret true
      else mret false
  | None => mret false
  end.

(** [SceneManager::BindGLTextures]. *)
Definition BindGLTextures : M unit :=
  n ← gets m_loadedTextures;
  for_range n (λ i,
    glActiveTexture i;;
    info ← texture_at i;
    glBindTexture (ID info)).

(** [SceneManager::DestroyGLTextures]. *)
Definition DestroyGLTextures : M unit :=
  n ← gets m_loadedTextures;
  for_range n (λ i,
    texture_at i;;
    texture_assign i (λ info, {| tex_tag := tex_tag info; ID := -1 |});;
    texture_assign i (λ info, {| tex_tag := "/0"; ID := ID info |}));;
  modify (set_m_loadedTextures 0).

(** The loop [while ((index < m_loadedTextures) && (bFound == false))] of
    the two lookups; [remaining] is [m_loadedTextures - index], the number of
    iterations left when nothing is found.  [result info index] is the value
    assigned on a match. *)
Fixpoint find_texture (result : TEXTURE_INFO → Z → Z) (remaining : nat)
    (index : Z) (t : string) : M Z :=
  match remaining with
  | O => mret (-1)
  | S remaining' =>
      info ← texture_at index;
      if decide (tex_tag info = t) then mret (result info index)
      else find_texture result remaining' (index + 1) t
  end.


(** [SceneManager::FindTextureSlot]. *)
Definition FindTextureSlot (t : string) : M Z :=
  n ← gets m_loadedTextures;
  find_texture (λ _ index, index) (Z.to_nat n) 0 t.

(** A sequence of [CreateGLTexture(filename, tag)] calls, as the nine
    calls of [PrepareScene] are one, with the value each call returns. *)
Fixpoint load_all (calls : list (string * string)) : M (list bool) :=
  match calls with
  | [] => mret []
  | (filename, t) :: rest =>
      b ← CreateGLTexture filename t;
      bs ← load_all rest;
      mret (b :: bs)
  end.

(** *** Transform and uniform dispatcher *)

Definition axisX := Vec3 (flit 10 1) (flit 0 1) (flit 0 1).
Definition axisY := Vec3 (flit 0 1) (flit 10 1) (flit 0 1).
Definition axisZ := Vec3 (flit 0 1) (flit 0 1) (flit 10 1).

(** [SceneManager::SetTransformations]. *)
Definition SetTransformations (scaleXYZ : vec3 float)
    (XrotationDegrees YrotationDegrees ZrotationDegrees : float)
    (positionXYZ : vec3 float) : M unit :=
  let scale := glm_scale scaleXYZ in
  let rotationX := glm_rotate (glm_radians XrotationDegrees) axisX in
  let rotationY := glm_rotate (glm_radians YrotationDegrees) axisY in
  let rotationZ := glm_rotate (glm_radians ZrotationDegrees) axisZ in
  let translation := glm_translate positionXYZ in
  let modelView := translation *m rotationX *m rotationY *m rotationZ *m scale in
  p ← gets m_pShaderManager;
  if p is Some _ then setUniform MainShader g_ModelName (UMat4 modelView)
  else mret tt.

(** [SceneManager::SetShaderColor]. *)
Definition SetShaderColor (redColorValue greenColorValue blueColorValue
    alphaValue : float) : M unit :=
  let currentColor :=
    Vec4 redColorValue greenColorValue blueColorValue alphaValue in
  p ← gets m_pShaderManager;
  if p is Some _ then
    setUniform MainShader g_UseTextureName (UInt 0);;
    setUniform MainShader g_ColorValueName (UVec4 currentColor)
  else mret tt.

(** [SceneManager::SetShaderTexture]. *)
Definition SetShaderTexture (textureTag : string) : M unit :=
  p ← gets m_pShaderManager;
  if p is Some _ then
    setUniform MainShader g_UseTextureName (UInt 1);;
    slot ← FindTextureSlot textureTag;
    if decide (0 ≤ slot)%Z then
      glActiveTexture slot;;
      info ← texture_at slot;
      glBindTexture (ID info);;
      setUniform MainShader g_TextureValueName (USampler2D slot)
    else mret tt
  else mret tt.

(** [SceneManager::SetTextureUVScale]. *)
Definition SetTextureUVScale (u v : float) : M unit :=
  p ← gets m_pShaderManager;
  if p is Some _ then setUniform MainShader "UVscale" (UVec2 (Vec2 u v))
  else mret tt.

(** The five uniform writes of each branch of [SetShaderMaterial]. *)
Definition set_material (ambient : vec3 float) (strength : float)
    (diffuse specular : vec3 float) (shine : float) : M unit :=
  setUniform MainShader "material.ambientColor" (UVec3 ambient);;
  setUniform MainShader "material.ambientStrength" (UFloat strength);;
  setUniform MainShader "material.diffuseColor" (UVec3 diffuse);;
  setUniform MainShader "material.specularColor" (UVec3 specular);;
  setUniform MainShader "material.shininess" (UFloat shine).

(** [SceneManager::SetShaderMaterial]: the shader manager is dereferenced
    without a null test. *)
Definition SetShaderMaterial (materialTag : string) : M unit :=
  if decide (materialTag = DESK_TEXTURE) then
    set_material WOOD_AMBIENT_COLOR DRAMATIC_AMBIENT_STRENGTH
      WOOD_DIFFUSE_COLOR WOOD_SPECULAR_COLOR WOOD_SHININESS
  else if decide (materialTag = MUG_TEXTURE) then
    set_material CERAMIC_AMBIENT_COLOR DRAMATIC_AMBIENT_STRENGTH
      CERAMIC_DIFFUSE_COLOR CERAMIC_SPECULAR_COLOR CERAMIC_SHININESS
  else if decide (materialTag = LAPTOP_TEXTURE) then
    set_material METAL_AMBIENT_COLOR METAL_AMBIENT_STRENGTH
      METAL_DIFFUSE_COLOR METAL_SPECULAR_COLOR METAL_SHININESS
  else if decide (materialTag = FLOOR_TEXTURE) then
    set_material STONE_AMBIENT_COLOR METAL_AMBIENT_STRENGTH
      STONE_DIFFUSE_COLOR STONE_SPECULAR_COLOR STONE_SHININESS
  else if decide (materialTag = WALL_TEXTURE) then
    set_material STONE_AMBIENT_COLOR METAL_AMBIENT_STRENGTH
      STONE_DIFFUSE_COLOR STONE_SPECULAR_COLOR STONE_SHININESS
  else if decide (materialTag = LAMP_SHADE_TEXTURE) then
    set_material (Vec3 (flit 10 1) (flit 8 1) (flit 4 1)) (flit 3 1)
      (Vec3 (flit 9 1) (flit 7 1) (flit 3 1))
      (Vec3 (flit 10 1) (flit 9 1) (flit 6 1)) METAL_SHININESS
  else if decide (materialTag = LAMP_BASE_TEXTURE) then
    set_material METAL_AMBIENT_COLOR METAL_AMBIENT_STRENGTH
      METAL_DIFFUSE_COLOR METAL_SPECULAR_COLOR METAL_SHININESS
  else
    set_material DEFAULT_COLOR STANDARD_AMBIENT_STRENGTH
      DEFAULT_COLOR DEFAULT_COLOR WOOD_SHININESS.

(** [SceneManager::SetModelMatrix]. *)
Definition SetModelMatrix (scaleXYZ : vec3 float) (Xrot Yrot Zrot : float)
    (positionXYZ : vec3 float) : M unit :=
  let scale := glm_scale scaleXYZ in
  let rotX := glm_rotate (glm_radians Xrot) axisX in
  let rotY := glm_rotate (glm_radians Yrot) axisY in
  let rotZ := glm_rotate (glm_radians Zrot) axisZ in
  let translation := glm_translate positionXYZ in
  let model := translation *m rotX *m rotY *m rotZ *m scale in
  p ← gets m_pShaderManager;
  (if p is Some _ then setUniform MainShader "model" (UMat4 model)
   else mret tt);;
  d ← gets m_pDepthShaderManager;
  if d is Some _ then setUniform DepthShader "model" (UMat4 model)
  else mret tt.

(** *** The two render passes

    The writes to [std::cout] are left out: they touch nothing else. *)

(** [SceneManager::RenderDepthPass]. *)
Definition RenderDepthPass (lightSpaceMatrix : mat4) : M unit :=
  gl_untracked;;                           (* glViewport *)
  fbo ← gets m_shadowMapFBO;
  glBindFramebuffer fbo;;
  gl_untracked;;                           (* glClear *)
  gl_untracked;;                           (* glEnable(GL_CULL_FACE) *)
  gl_untracked;;                           (* glCullFace(GL_FRONT) *)
  use DepthShader;;
  setUniform DepthShader "lightSpaceMatrix" (UMat4 lightSpaceMatrix);;
  SetModelMatrix DESK_SCALE
    (v3x DESK_ROTATION) (v3y DESK_ROTATION) (v3z DESK_ROTATION)
    DESK_POSITION;;
  DrawMesh BoxMesh;;
  SetModelMatrix MUG_BODY_SCALE
    (v3x MUG_BODY_ROTATION) (v3y MUG_BODY_ROTATION) (v3z MUG_BODY_ROTATION)
    MUG_BODY_POSITION;;
  DrawMesh CylinderMesh;;
  SetModelMatrix MUG_HANDLE_SCALE
    (v3x MUG_HANDLE_ROTATION) (v3y MUG_HANDLE_ROTATION) (v3z MUG_HANDLE_ROTATION)
    MUG_HANDLE_POSITION;;
  DrawMesh TorusMesh;;
  SetModelMatrix LAMP_BASE_SCALE
    (v3x LAMP_BASE_ROTATION) (v3y LAMP_BASE_ROTATION) (v3z LAMP_BASE_ROTATION)
    LAMP_BASE_POSITION;;
  DrawMesh CylinderMesh;;
  SetModelMatrix LAMP_STEM_SCALE
    (v3x LAMP_STEM_ROTATION) (v3y LAMP_STEM_ROTATION) (v3z LAMP_STEM_ROTATION)
    LAMP_STEM_POSITION;;
  DrawMesh CylinderMesh;;
  SetModelMatrix LAMP_SHADE_SCALE
    (v3x LAMP_SHADE_ROTATION) (v3y LAMP_SHADE_ROTATION) (v3z LAMP_SHADE_ROTATION)
    LAMP_SHADE_POSITION;;
  DrawMesh ConeMesh;;
  SetModelMatrix LAPTOP_BASE_SCALE
    (v3x LAPTOP_BASE_ROTATION) (v3y LAPTOP_BASE_ROTATION) (v3z LAPTOP_BASE_ROTATION)
    LAPTOP_BASE_POSITION;;
  DrawMesh BoxMesh;;
  SetModelMatrix LAPTOP_SCREEN_SCALE
    (v3x LAPTOP_SCREEN_ROTATION) (v3y LAPTOP_SCREEN_ROTATION)
    (v3z LAPTOP_SCREEN_ROTATION)
    LAPTOP_SCREEN_POSITION;;
  DrawMesh BoxMesh;;
  SetModelMatrix DISPLAY_PANEL_SCALE
    (v3x DISPLAY_PANEL_ROTATION) (v3y DISPLAY_PANEL_ROTATION)
    (v3z DISPLAY_PANEL_ROTATION)
    DISPLAY_PANEL_POSITION;;
  DrawMesh BoxMesh;;
  for_range KEY_ROWS (λ r,
    for_range KEY_COLS (λ c,
      let x := KEY_START_X +f float_of_int c *f (KEY_WIDTH +f KEY_SPACING) in
      let y := KEY_Y in
      let z := KEY_START_Z +f float_of_int r *f (KEY_DEPTH +f KEY_SPACING) in
      SetModelMatrix (Vec3 KEY_WIDTH KEY_HEIGHT KEY_DEPTH)
        (flit 0 1) (flit 0 1) (flit 0 1) (Vec3 x y z);;
      DrawMesh BoxMesh));;
  SetModelMatrix FLOOR_SCALE
    (v3x FLOOR_ROTATION) (v3y FLOOR_ROTATION) (v3z FLOOR_ROTATION)
    FLOOR_POSITION;;
  DrawMesh BoxMesh;;
  (let wallY := FLOOR_Y +f (FLOOR_HEIGHT /f flit 20 1)
                +f (v3y WALL_SCALE /f flit 20 1) in
   let wallPosition :=
     Vec3 (v3x WALL_POSITION_OFFSET) wallY (v3z WALL_POSITION_OFFSET) in
   SetModelMatrix WALL_SCALE
     (v3x WALL_ROTATION) (v3y WALL_ROTATION) (v3z WALL_ROTATION)
     wallPosition);;
  DrawMesh BoxMesh;;
  gl_untracked;;                           (* glCullFace(GL_BACK) *)
  gl_untracked;;                           (* glDisable(GL_CULL_FACE) *)
  glBindFramebuffer 0.

(** [SceneManager::DrawDeskSurface]. *)
Definition DrawDeskSurface : M unit :=
  SetShaderTexture DESK_TEXTURE;;
  SetTextureUVScale (v2x DEFAULT_UV_SCALE) (v2y DEFAULT_UV_SCALE);;
  SetShaderMaterial DESK_TEXTURE;;
  setUniform MainShader "bUseLighting" (UInt 1);;
  SetTransformations DESK_SCALE
    (v3x DESK_ROTATION) (v3y DESK_ROTATION) (v3z DESK_ROTATION)
    DESK_POSITION;;
  DrawMesh BoxMesh.

(** [SceneManager::DrawCoffeeMug]. *)
Definition DrawCoffeeMug : M unit :=
  SetShaderTexture MUG_TEXTURE;;
  SetTextureUVScale (v2x DEFAULT_UV_SCALE) (v2y DEFAULT_UV_SCALE);;
  SetShaderMaterial MUG_TEXTURE;;
  setUniform MainShader "bUseLighting" (UInt 1);;
  SetTransformations MUG_BODY_SCALE
    (v3x MUG_BODY_ROTATION) (v3y MUG_BODY_ROTATION) (v3z MUG_BODY_ROTATION)
    MUG_BODY_POSITION;;
  DrawMesh CylinderMesh;;
  SetShaderTexture HANDLE_TEXTURE;;
  SetTextureUVScale (v2x DEFAULT_UV_SCALE) (v2y DEFAULT_UV_SCALE);;
  SetShaderMaterial MUG_TEXTURE;;
  SetTransformations MUG_HANDLE_SCALE
    (v3x MUG_HANDLE_ROTATION) (v3y MUG_HANDLE_ROTATION) (v3z MUG_HANDLE_ROTATION)
    MUG_HANDLE_POSITION;;
  DrawMesh TorusMesh.

(** [SceneManager::DrawLaptop]. *)
Definition DrawLaptop : M unit :=
  SetShaderColor (v3x METAL_AMBIENT_COLOR) (v3y METAL_AMBIENT_COLOR)
    (v3z METAL_AMBIENT_COLOR) (flit 10 1);;
  SetShaderTexture LAPTOP_TEXTURE;;
  SetTextureUVScale (v2x LAPTOP_UV_SCALE) (v2y LAPTOP_UV_SCALE);;
  SetShaderMaterial LAPTOP_TEXTURE;;
  setUniform MainShader "bUseLighting" (UInt 1);;
  SetTransformations LAPTOP_BASE_SCALE
    (v3x LAPTOP_BASE_ROTATION) (v3y LAPTOP_BASE_ROTATION) (v3z LAPTOP_BASE_ROTATION)
    LAPTOP_BASE_POSITION;;
  DrawMesh BoxMesh;;
  SetShaderTexture LAPTOP_TEXTURE;;
  SetShaderMaterial LAPTOP_TEXTURE;;
  SetTransformations LAPTOP_SCREEN_SCALE
    (v3x LAPTOP_SCREEN_ROTATION) (v3y LAPTOP_SCREEN_ROTATION)
    (v3z LAPTOP_SCREEN_ROTATION)
    LAPTOP_SCREEN_POSITION;;
  DrawMesh BoxMesh;;
  SetShaderTexture SCREEN_TEXTURE;;
  SetTextureUVScale (v2x DEFAULT_UV_SCALE) (v2y DEFAULT_UV_SCALE);;
  SetShaderMaterial LAPTOP_TEXTURE;;
  SetTransformations DISPLAY_PANEL_SCALE
    (v3x DISPLAY_PANEL_ROTATION) (v3y DISPLAY_PANEL_ROTATION)
    (v3z DISPLAY_PANEL_ROTATION)
    DISPLAY_PANEL_POSITION;;
  DrawMesh BoxMesh;;
  for_range KEY_ROWS (λ r,
    for_range KEY_COLS (λ c,
      let x := KEY_START_X +f float_of_int c *f (KEY_WIDTH +f KEY_SPACING) in
      let y := KEY_Y in
      let z := KEY_START_Z +f float_of_int r *f (KEY_DEPTH +f KEY_SPACING) in
      SetTransformations (Vec3 KEY_WIDTH KEY_HEIGHT KEY_DEPTH)
        (flit 0 1) (flit 0 1) (flit 0 1) (Vec3 x y z);;
      SetShaderColor (v3x KEY_COLOR) (v3y KEY_COLOR) (v3z KEY_COLOR) (flit 10 1);;
      setUniform MainShader "bUseLighting" (UInt 1);;
      DrawMesh BoxMesh)).

(** [SceneManager::DrawFloor]. *)
Definition DrawFloor : M unit :=
  SetShaderTexture FLOOR_TEXTURE;;
  SetTextureUVScale (v2x FLOOR_UV_SCALE) (v2y FLOOR_UV_SCALE);;
  setUniform MainShader "bUseLighting" (UInt 1);;
  SetTransformations FLOOR_SCALE
    (v3x FLOOR_ROTATION) (v3y FLOOR_ROTATION) (v3z FLOOR_ROTATION)
    FLOOR_POSITION;;
  SetShaderMaterial FLOOR_TEXTURE;;
  DrawMesh BoxMesh.

(** [SceneManager::DrawBackground]. *)
Definition DrawBackground : M unit :=
  SetShaderTexture WALL_TEXTURE;;
  SetTextureUVScale (v2x WALL_UV_SCALE) (v2y WALL_UV_SCALE);;
  SetShaderMaterial WALL_TEXTURE;;
  setUniform MainShader "bUseLighting" (UInt 1);;
  let wallWidth := flit 624 1 in
  let wallHeight := flit 260 1 in
  let wallThickness := flit 65 2 in
  let wallDepth := flit (-2125) 2 in
  let floorY := FLOOR_Y in
  let floorHeight := FLOOR_HEIGHT in
  let wallY := floorY +f (floorHeight /f flit 20 1) +f (wallHeight /f flit 20 1) in
  SetTransformations (Vec3 wallWidth wallHeight wallThickness)
    (v3x WALL_ROTATION) (v3y WALL_ROTATION) (v3z WALL_ROTATION)
    (Vec3 (flit 0 1) wallY wallDepth);;
  DrawMesh BoxMesh.

(** [SceneManager::DrawDeskLamp]. *)
Definition DrawDeskLamp : M unit :=
  SetShaderTexture LAMP_BASE_TEXTURE;;
  SetTextureUVScale (v2x DEFAULT_UV_SCALE) (v2y DEFAULT_UV_SCALE);;
  SetShaderMaterial LAMP_BASE_TEXTURE;;
  setUniform MainShader "bUseLighting" (UInt 1);;
  SetTransformations LAMP_BASE_SCALE
    (v3x LAMP_BASE_ROTATION) (v3y LAMP_BASE_ROTATION) (v3z LAMP_BASE_ROTATION)
    LAMP_BASE_POSITION;;
  DrawMesh CylinderMesh;;
  SetTransformations LAMP_STEM_SCALE
    (v3x LAMP_STEM_ROTATION) (v3y LAMP_STEM_ROTATION) (v3z LAMP_STEM_ROTATION)
    LAMP_STEM_POSITION;;
  DrawMesh CylinderMesh;;
  SetShaderTexture LAMP_SHADE_TEXTURE;;
  SetTextureUVScale (v2x DEFAULT_UV_SCALE) (v2y DEFAULT_UV_SCALE);;
  SetShaderMaterial LAMP_SHADE_TEXTURE;;
  SetTransformations LAMP_SHADE_SCALE
    (v3x LAMP_SHADE_ROTATION) (v3y LAMP_SHADE_ROTATION) (v3z LAMP_SHADE_ROTATION)
    LAMP_SHADE_POSITION;;
  DrawMesh ConeMesh.

(** [SceneManager::RenderScene]. *)
Definition RenderScene (lightSpaceMatrix : mat4) : M unit :=
  use MainShader;;
  setUniform MainShader "numActiveLights" (UInt 2);;
  setUniform MainShader "lightSources[0].position" (UVec3 DRAMATIC_LIGHT_POSITION);;
  setUniform MainShader "lightSources[0].diffuseColor"
    (UVec3 (vec3_splat DRAMATIC_LIGHT_INTENSITY));;
  setUniform MainShader "lightSources[0].spotDirection"
    (UVec3 DRAMATIC_LIGHT_DIRECTION);;
  setUniform MainShader "lightSources[0].cutoff"
    (UFloat (glm_cos (glm_radians TIGHT_SPOTLIGHT_INNER)));;
  setUniform MainShader "lightSources[0].outerCutoff"
    (UFloat (glm_cos (glm_radians TIGHT_SPOTLIGHT_OUTER)));;
  setUniform MainShader "lightSources[1].position" (UVec3 ACCENT_LIGHT_POSITION);;
  setUniform MainShader "lightSources[1].ambientColor" (UVec3 ACCENT_LIGHT_AMBIENT);;
  setUniform MainShader "lightSources[1].diffuseColor" (UVec3 ACCENT_LIGHT_DIFFUSE);;
  setUniform MainShader "lightSources[1].specularColor"
    (UVec3 ACCENT_LIGHT_SPECULAR);;
  setUniform MainShader "lightSpaceMatrix" (UMat4 lightSpaceMatrix);;
  (let SHADOW_MAP_SLOT := 15 in
   glActiveTexture SHADOW_MAP_SLOT;;
   shadowMap ← gets m_shadowMap;
   glBindTexture shadowMap;;
   setUniform MainShader "shadowMap" (USampler2D SHADOW_MAP_SLOT));;
  DrawDeskSurface;;
  DrawCoffeeMug;;
  DrawLaptop;;
  DrawDeskLamp;;
  DrawFloor;;
  DrawBackground.

(** *** Shadow-map set-up *)

(** [SceneManager::InitShadowMap]. *)
Definition InitShadowMap : M unit :=
  fbo ← glGen;
  modify (set_m_shadowMapFBO fbo);;
  shadowMap ← glGen;
  modify (set_m_shadowMap shadowMap);;
  glBindTexture shadowMap;;
  gl_untracked;;                           (* glTexImage2D, depth, 1024 x 1024 *)
  gl_untracked;;                           (* glTexParameteri, four times *)
  gl_untracked;;                           (* glTexParameterfv, border colour *)
  fbo ← gets m_shadowMapFBO;
  glBindFramebuffer fbo;;
  gl_untracked;;                           (* glFramebufferTexture2D *)
  gl_untracked;;                           (* glDrawBuffer(GL_NONE) *)
  gl_untracked;;                           (* glReadBuffer(GL_NONE) *)
  glBindFramebuffer 0.

(** The shadow-map block of [SceneManager::PrepareScene] (from
    [glGenFramebuffers] to the completeness test): the statements of
    [InitShadowMap] written out again, then the test and its diagnostic. *)
Definition shadow_diagnostic : string :=
  "ERROR: Shadow map framebuffer is not complete!".

Definition PrepareScene_shadow_map : M unit :=
  fbo ← glGen;
  modify (set_m_shadowMapFBO fbo);;
  shadowMap ← glGen;
  modify (set_m_shadowMap shadowMap);;
  glBindTexture shadowMap;;
  gl_untracked;;                           (* glTexImage2D, depth, 1024 x 1024 *)
  gl_untracked;;                           (* glTexParameteri, four times *)
  gl_untracked;;                           (* glTexParameterfv, border colour *)
  fbo ← gets m_shadowMapFBO;
  glBindFramebuffer fbo;;
  gl_untracked;;                           (* glFramebufferTexture2D *)
  gl_untracked;;                           (* glDrawBuffer(GL_NONE) *)
  gl_untracked;;                           (* glReadBuffer(GL_NONE) *)
  glBindFramebuffer 0;;
  complete ← glCheckFramebufferStatus_complete;
  if negb complete then print_cerr shadow_diagnostic else mret tt.

(** *** The material block of [PrepareScene] *)

(** [m_objectMaterials.push_back(material)]. *)
Definition push_back (material : OBJECT_MATERIAL) : M unit :=
  modify (λ w, set_m_objectMaterials (m_objectMaterials w ++ [material]) w).

Definition deskMaterial : OBJECT_MATERIAL :=
  {| tag := DESK_TEXTURE; ambientColor := WOOD_AMBIENT_COLOR;
     ambientStrength := flit 3 1; diffuseColor := WOOD_DIFFUSE_COLOR;
     specularColor := WOOD_SPECULAR_COLOR; shininess := WOOD_SHININESS |}.
Definition laptopMaterial : OBJECT_MATERIAL :=
  {| tag := LAPTOP_TEXTURE; ambientColor := METAL_AMBIENT_COLOR;
     ambientStrength := flit 2 1; diffuseColor := METAL_DIFFUSE_COLOR;
     specularColor := METAL_SPECULAR_COLOR; shininess := METAL_SHININESS |}.
Definition mugMaterial : OBJECT_MATERIAL :=
  {| tag := MUG_TEXTURE; ambientColor := CERAMIC_AMBIENT_COLOR;
     ambientStrength := flit 3 1; diffuseColor := CERAMIC_DIFFUSE_COLOR;
     specularColor := Vec3 (flit 8 1) (flit 8 1) (flit 8 1);
     shininess := CERAMIC_SHININESS |}.
Definition floorMaterial : OBJECT_MATERIAL :=
  {| tag := FLOOR_TEXTURE; ambientColor := STONE_AMBIENT_COLOR;
     ambientStrength := flit 2 1; diffuseColor := STONE_DIFFUSE_COLOR;
     specularColor := STONE_SPECULAR_COLOR; shininess := STONE_SHININESS |}.
Definition wallMaterial : OBJECT_MATERIAL :=
  {| tag := WALL_TEXTURE; ambientColor := STONE_AMBIENT_COLOR;
     ambientStrength := flit 2 1; diffuseColor := STONE_DIFFUSE_COLOR;
     specularColor := STONE_SPECULAR_COLOR; shininess := STONE_SHININESS |}.
Definition lampShadeMaterial : OBJECT_MATERIAL :=
  {| tag := LAMP_SHADE_TEXTURE;
     ambientColor := Vec3 (flit 10 1) (flit 8 1) (flit 4 1);
     ambientStrength := flit 3 1;
     diffuseColor := Vec3 (flit 9 1) (flit 7 1) (flit 3 1);
     specularColor := Vec3 (flit 10 1) (flit 9 1) (flit 6 1);
     shininess := METAL_SHININESS |}.
Definition lampBaseMaterial : OBJECT_MATERIAL :=
  {| tag := LAMP_BASE_TEXTURE; ambientColor := METAL_AMBIENT_COLOR;
     ambientStrength := flit 2 1; diffuseColor := METAL_DIFFUSE_COLOR;
     specularColor := METAL_SPECULAR_COLOR; shininess := METAL_SHININESS |}.

Definition PrepareScene_materials : M unit :=
  push_back deskMaterial;;
  push_back laptopMaterial;;
  push_back mugMaterial;;
  push_back floorMaterial;;
  push_back wallMaterial;;
  push_back lampShadeMaterial;;
  push_back lampBaseMaterial.

End Scene.

(** ** An interpretation of the interface, and a concrete context

    The free interpretation: a [float] is the expression that computes it,
    a matrix the product of GLM calls that builds it.  The closed examples
    below run the functions in it. *)
Inductive fexpr :=
| FLit (m : Z) (e : nat)
| FOfInt (i : Z)
| FAdd (a b : fexpr)
| FMul (a b : fexpr)
| FDiv (a b : fexpr)
| FRadians (a : fexpr)
| FCos (a : fexpr).

Inductive mexpr :=
| MScale (v : vec3 fexpr)
| MRotate (angle : fexpr) (axis : vec3 fexpr)
| MTranslate (v : vec3 fexpr)
| MMul (a b : mexpr).

#[global] Instance Glm_expr : Glm := {|
  float := fexpr;
  mat4 := mexpr;
  flit := FLit;
  float_of_int := FOfInt;
  fadd := FAdd;
  fmul := FMul;
  fdiv := FDiv;
  glm_radians := FRadians;
  glm_cos := FCos;
  glm_scale := MScale;
  glm_rotate := MRotate;
  glm_translate := MTranslate;
  mat4_mul := MMul;
|}.

(** A context right after start-up: the driver hands out the names 1, 2,
    ...; nothing is bound; [files] are the images on disk and [complete]
    the completeness the driver reports for each framebuffer. *)
Definition fresh_context (files : gmap string image) (complete : Z → bool)
    : @World Glm_expr :=
  {| m_pShaderManager := None; m_pDepthShaderManager := None;
     m_textureIDs := []; m_loadedTextures := 0; m_objectMaterials := [];
     m_shadowMapFBO := 0; m_shadowMap := 0;
     gl_names := λ n, Z.of_nat (S n); gl_generated := 0;
     gl_active_texture := 0; gl_texture_binding := ∅;
     gl_framebuffer_binding := 0; gl_framebuffer_complete := complete;
     gl_program := None; gl_draws := [];
     stbi_files := files; cerr := [] |}.

(** A shader manager whose program has handle [program] and no uniform
    set yet. *)
Definition new_manager (program : Z) : @ShaderManager Glm_expr :=
  {| m_programID := program; uniforms := ∅ |}.

(** Seventeen image files, [tex0.jpg] to [tex16.jpg], of three channels
    each, and a load of each under a tag of its own. *)
Definition seventeen : list nat := seq 0 17.
Definition file_name (i : nat) : string := "tex" +:+ pretty i +:+ ".jpg".
Definition file_tag (i : nat) : string := "tag" +:+ pretty i.
Definition rgb_image : image := {| width := 64; height := 64; colorChannels := 3 |}.
Definition seventeen_files : gmap string image :=
  list_to_map ((λ i, (file_name i, rgb_image)) <$> seventeen).
Definition seventeen_loads : list (string * string) :=
  (λ i, (file_name i, file_tag i)) <$> seventeen.

(** ** Shader loading ([ShaderManager.cpp])

    [LoadShaders] talks to the file system, to the OpenGL driver and to
    the console.  The driver is modelled by the calls it receives, in
    order, and by the names it hands out; what a call does inside the
    driver (whether a source compiles, whether a program links) is not
    modelled, and neither are the messages whose text comes from the
    driver. *)
Module Loader.
Local Open Scope Z_scope.

Inductive shader_kind := GL_VERTEX_SHADER | GL_FRAGMENT_SHADER.

Inductive gl_call :=
| glCreateShader (kind : shader_kind) (result : Z)
| glShaderSource (sh : Z) (source : string)
| glCompileShader (sh : Z)
| glCreateProgram (result : Z)
| glAttachShader (program sh : Z)
| glLinkProgram (program : Z)
| glUseProgram (program : Z)
| glUniform1i (program : Z) (name : string) (value : Z)
| glDetachShader (program sh : Z)
| glDeleteShader (sh : Z).

Inductive console_event :=
| Printed (text : string)
| Getchar.

(** The text files that can be opened, the names the driver hands out
    ([names n] is the [n]-th), the calls and console events so far, and the
    member [m_programID] of the manager. *)
Record state := {
  files : gmap string string;
  names : nat → Z;
  handed_out : nat;
  calls : list gl_call;
  console : list console_event;
  m_programID : Z;
}.

Definition call (c : gl_call) (st : state) : state :=
  {| files := files st; names := names st; handed_out := handed_out st;
     calls := calls st ++ [c]; console := console st;
     m_programID := m_programID st |}.

Definition tell (e : console_event) (st : state) : state :=
  {| files := files st; names := names st; handed_out := handed_out st;
     calls := calls st; console := console st ++ [e];
     m_programID := m_programID st |}.

(** A call that creates an object: the driver's next name is its result. *)
Definition create (c : Z → gl_call) (st : state) : Z * state :=
  let name := names st (handed_out st) in
  (name,
   {| files := files st; names := names st; handed_out := S (handed_out st);
      calls := calls st ++ [c name]; console := console st;
      m_programID := m_programID st |}).

Definition set_m_programID (v : Z) (st : state) : state :=
  {| files := files st; names := names st; handed_out := handed_out st;
     calls := calls st; console := console st; m_programID := v |}.

Definition GL_TRUE : Z := 1.
Definition GL_FALSE : Z := 0.

(** [ShaderManager::LoadShaders]. *)
Definition LoadShaders (vertex_file_path fragment_file_path : string)
    (st : state) : Z * state :=
  let '(VertexShaderID, st) := create (glCreateShader GL_VERTEX_SHADER) st in
  let '(FragmentShaderID, st) := create (glCreateShader GL_FRAGMENT_SHADER) st in
  let st :=
    if files st !! vertex_file_path is Some _
    then tell (Printed ("DEBUG: Shader file FOUND at runtime: " +:+ vertex_file_path)) st
    else tell (Printed ("DEBUG: Shader file NOT found at runtime: " +:+ vertex_file_path)) st in
  match files st !! vertex_file_path with
  | None =>
      let st := tell (Printed ("Impossible to open " +:+ vertex_file_path +:+
        ". Are you in the right directory ? Don't forget to read the FAQ !")) st in
      let st := tell Getchar st in
      (0, st)
  | Some VertexShaderCode =>
      let FragmentShaderCode :=
        match files st !! fragment_file_path with
        | Some code => code
        | None => ""
        end in
      let st := tell (Printed ("Compiling shader : " +:+ vertex_file_path +:+ "...")) st in
      let st := call (glShaderSource VertexShaderID VertexShaderCode) st in
      let st := call (glCompileShader VertexShaderID) st in
      let st := tell (Printed "success") st in
      let st := tell (Printed ("Compiling shader : " +:+ fragment_file_path +:+ "...")) st in
      let st := call (glShaderSource FragmentShaderID FragmentShaderCode) st in
      let st := call (glCompileShader FragmentShaderID) st in
      let st := tell (Printed "success") st in
      let st := tell (Printed "Linking shader program...") st in
      let '(ProgramID, st) := create glCreateProgram st in
      let st := set_m_programID ProgramID st in
      let st := call (glAttachShader ProgramID VertexShaderID) st in
      let st := call (glAttachShader ProgramID FragmentShaderID) st in
      let st := call (glLinkProgram ProgramID) st in
      let st := call (glUseProgram ProgramID) st in
      let st := call (glUniform1i ProgramID "bUseTexture" GL_TRUE) st in
      let st := call (glUniform1i ProgramID "bUseLighting" GL_FALSE) st in
      let st := tell (Printed "success") st in
      let st := call (glDetachShader ProgramID VertexShaderID) st in
      let st := call (glDetachShader ProgramID FragmentShaderID) st in
      let st := call (glDeleteShader VertexShaderID) st in
      let st := call (glDeleteShader FragmentShaderID) st in
      (ProgramID, st)
  end.

(** The programs created by a sequence of calls. *)
Definition programs_created (cs : list gl_call) : list Z :=
  omap (λ c, if c is glCreateProgram p then Some p else None) cs.

(** A driver that hands out 1, 2, 3, ... and a disk with the given files. *)
Definition start (disk : gmap string string) : state :=
  {| files := disk; names := λ n, Z.of_nat (S n); handed_out := 0%nat;
     calls := []; console := []; m_programID := 0 |}.

End Loader.

(** ** The fragment shader ([fragmentShader.glsl])

    GLSL arithmetic and built-ins are an interface of their own: [gfloat]
    is the shader's [float], [glit m e] the literal [m * 10^-e], [texture s
    uv] the texel the sampler bound to unit [s] returns at [uv]. *)
Class Glsl := {
  gfloat : Type;
  glit : Z → nat → gfloat;
  gmul : gfloat → gfloat → gfloat;
  gsub : gfloat → gfloat → gfloat;
  normalize : vec3 gfloat → vec3 gfloat;
  dot : vec3 gfloat → vec3 gfloat → gfloat;
  gmax : gfloat → gfloat → gfloat;
  texture : Z → vec2 gfloat → vec4 gfloat;
}.

Module Fragment.
Section Shader.
Context `{Glsl}.

Record Material := {
  ambientColor : vec3 gfloat;
  ambientStrength : gfloat;
  diffuseColor : vec3 gfloat;
  specularColor : vec3 gfloat;
  shininess : gfloat;
}.

(** The colour fields of [PointLight] carry the prefix [light_]: the
    fields of the two records share one name space here. *)
Record PointLight := {
  position : vec3 gfloat;
  light_ambientColor : vec3 gfloat;
  light_diffuseColor : vec3 gfloat;
  light_specularColor : vec3 gfloat;
  focalStrength : gfloat;
  specularIntensity : gfloat;
  spotDirection : vec3 gfloat;
  cutoff : gfloat;
  outerCutoff : gfloat;
}.

(** The inputs of one invocation: the three interpolated [in] variables
    and the uniforms ([lightSources i] for [i] from 0 to 7 is the array). *)
Record input := {
  fragmentPosition : vec3 gfloat;
  fragmentVertexNormal : vec3 gfloat;
  fragmentTextureCoordinate : vec2 gfloat;
  bUseTexture : bool;
  bUseLighting : bool;
  objectColor : vec4 gfloat;
  objectTexture : Z;
  viewPosition : vec3 gfloat;
  UVscale : vec2 gfloat;
  lightSources : nat → PointLight;
  material : Material;
  numActiveLights : Z;
}.

Definition vec3_sub (a b : vec3 gfloat) : vec3 gfloat :=
  Vec3 (gsub (v3x a) (v3x b)) (gsub (v3y a) (v3y b)) (gsub (v3z a) (v3z b)).
Definition vec3_mul (a b : vec3 gfloat) : vec3 gfloat :=
  Vec3 (gmul (v3x a) (v3x b)) (gmul (v3y a) (v3y b)) (gmul (v3z a) (v3z b)).
Definition vec2_mul (a b : vec2 gfloat) : vec2 gfloat :=
  Vec2 (gmul (v2x a) (v2x b)) (gmul (v2y a) (v2y b)).
Definition rgb (c : vec4 gfloat) : vec3 gfloat := Vec3 (v4x c) (v4y c) (v4z c).
Definition vec4_of (c : vec3 gfloat) (a : gfloat) : vec4 gfloat :=
  Vec4 (v3x c) (v3y c) (v3z c) a.

(** [void main()]: the value assigned to [outFragmentColor]. *)
Definition main (i : input) : vec4 gfloat :=
  if bUseLighting i && bool_decide (0 < numActiveLights i)%Z then
    let normal := normalize (fragmentVertexNormal i) in
    let light := lightSources i 0 in
    let lightDir := normalize (vec3_sub (position light) (fragmentPosition i)) in
    let intensity := gmax (dot normal lightDir) (glit 0 1) in
    let result :=
      Vec3 intensity (gmul intensity (glit 9 1)) (gmul intensity (glit 1 1)) in
    if bUseTexture i then
      let texColor :=
        texture (objectTexture i)
          (vec2_mul (fragmentTextureCoordinate i) (UVscale i)) in
      vec4_of (vec3_mul result (rgb texColor)) (v4w texColor)
    else
      vec4_of (vec3_mul result (rgb (objectColor i))) (v4w (objectColor i))
  else
    if bUseTexture i then
      texture (objectTexture i)
        (vec2_mul (fragmentTextureCoordinate i) (UVscale i))
    else objectColor i.

End Shader.
End Fragment.

(** The state a command leaves (the state itself where it is undefined). *)
Definition after `{Glm} {A} (c : M A) (w : World) : World :=
  match c w with Some (_, w') => w' | None => w end.

(** A freshly constructed scene manager with seventeen files on disk, and
    the same with a main and a depth shader manager in place. *)
Definition new_scene : @World Glm_expr :=
  SceneManager_new None (fresh_context seventeen_files (λ _, true)).
Definition scene_with_shaders : @World Glm_expr :=
  set_m_pDepthShaderManager (Some (new_manager 6))
    (SceneManager_new (Some (new_manager 3))
       (fresh_context seventeen_files (λ _, true))).

(** The scene after sixteen successful loads, and the scene after a key
    of the keyboard was given its solid colour. *)
Definition sixteen_loaded : @World Glm_expr :=
  after (load_all (take 16 seventeen_loads)) new_scene.
Definition key_colored : @World Glm_expr :=
  after (SetShaderColor (v3x KEY_COLOR) (v3y KEY_COLOR) (v3z KEY_COLOR)
           (flit 10 1)) scene_with_shaders.

(** A light-space matrix for the examples. *)
Definition light_space : @mat4 Glm_expr :=
  MMul (MScale (Vec3 (FLit 1 1) (FLit 1 1) (FLit 1 1)))
       (MTranslate (Vec3 (FLit (-20) 1) (FLit (-80) 1) (FLit 30 1))).

(** A driver that reports the default framebuffer complete and every
    other framebuffer incomplete. *)
Definition only_default_complete : @World Glm_expr :=
  SceneManager_new (Some (new_manager 3))
    (fresh_context seventeen_files (λ fb, bool_decide (fb = 0%Z))).

(** The free interpretation of the GLSL interface. *)
Inductive gexpr :=
| GLit (m : Z) (e : nat)
| GMul (a b : gexpr)
| GSub (a b : gexpr)
| GNormalized (component : nat) (x y z : gexpr)
| GDot (a1 a2 a3 b1 b2 b3 : gexpr)
| GMax (a b : gexpr)
| GTexel (channel : nat) (sampler : Z) (u v : gexpr).

#[global] Instance Glsl_expr : Glsl := {|
  gfloat := gexpr;
  glit := GLit;
  gmul := GMul;
  gsub := GSub;
  normalize := λ v,
    Vec3 (GNormalized 0 (v3x v) (v3y v) (v3z v))
         (GNormalized 1 (v3x v) (v3y v) (v3z v))
         (GNormalized 2 (v3x v) (v3y v) (v3z v));
  dot := λ a b, GDot (v3x a) (v3y a) (v3z a) (v3x b) (v3y b) (v3z b);
  gmax := GMax;
  texture := λ s uv,
    Vec4 (GTexel 0 s (v2x uv) (v2y uv)) (GTexel 1 s (v2x uv) (v2y uv))
         (GTexel 2 s (v2x uv) (v2y uv)) (GTexel 3 s (v2x uv) (v2y uv));
|}.

(** A lit, textured fragment of the desk under two lights, and the same
    fragment with the second light moved and recoloured, the spot cone of
    the first light changed, and another material and view position. *)
Definition gvec3 (x y z : Z) : vec3 gexpr :=
  Vec3 (GLit x 1) (GLit y 1) (GLit z 1).
Definition light_at (p : vec3 gexpr) (colour : vec3 gexpr) (cone : gexpr)
    : @Fragment.PointLight Glsl_expr :=
  {| Fragment.position := p; Fragment.light_ambientColor := colour;
     Fragment.light_diffuseColor := colour;
     Fragment.light_specularColor := colour;
     Fragment.focalStrength := GLit 640 1;
     Fragment.specularIntensity := GLit 10 1;
     Fragment.spotDirection := gvec3 (-3) (-10) 4;
     Fragment.cutoff := cone; Fragment.outerCutoff := cone |}.
Definition some_material (shine : gexpr) : @Fragment.Material Glsl_expr :=
  {| Fragment.ambientColor := gvec3 10 9 7; Fragment.ambientStrength := GLit 5 2;
     Fragment.diffuseColor := gvec3 10 9 6; Fragment.specularColor := gvec3 5 5 5;
     Fragment.shininess := shine |}.
Definition desk_fragment (second : @Fragment.PointLight Glsl_expr)
    (cone shine : gexpr) (eye : vec3 gexpr) : @Fragment.input Glsl_expr :=
  {| Fragment.fragmentPosition := gvec3 10 (-5) (-50);
     Fragment.fragmentVertexNormal := gvec3 0 10 0;
     Fragment.fragmentTextureCoordinate := Vec2 (GLit 5 1) (GLit 5 1);
     Fragment.bUseTexture := true; Fragment.bUseLighting := true;
     Fragment.objectColor := Vec4 (GLit 10 1) (GLit 10 1) (GLit 10 1) (GLit 10 1);
     Fragment.objectTexture := 0; Fragment.viewPosition := eye;
     Fragment.UVscale := Vec2 (GLit 10 1) (GLit 10 1);
     Fragment.lightSources := λ n,
       match n with
       | O => light_at (gvec3 20 80 (-30)) (gvec3 250 250 250) cone
       | _ => second
       end;
     Fragment.material := some_material shine;
     Fragment.numActiveLights := 2 |}.

(** * Properties *)

Ltac munfold :=
  unfold mbind, M_bind, bind, mret, M_ret, ret, gets, modify, undefined in *.

Section Monad.
Context `{Glm}.

Lemma bind_run {A B} (c : M A) (k : A → M B) w a w' :
  c w = Some (a, w') → (c ≫= k) w = k a w'.
Proof. intros Hc. munfold. by rewrite Hc. Qed.

Lemma bind_undefined {A B} (c : M A) (k : A → M B) w :
  c w = None → (c ≫= k) w = None.
Proof. intros Hc. munfold. by rewrite Hc. Qed.

Lemma bind_inv {A B} (c : M A) (k : A → M B) w b w'' :
  (c ≫= k) w = Some (b, w'') →
  ∃ a w', c w = Some (a, w') ∧ k a w' = Some (b, w'').
Proof.
  munfold. destruct (c w) as [[a w']|] eqn:Hc; [|done]. eauto.
Qed.
End Monad.

(** ** The texture registry *)

Section Registry.
Context `{Glm}.
Local Open Scope Z_scope.

(** Size of the slot table, and the slots in use. *)
Definition capacity (w : World) : Z := Z.of_nat (length (m_textureIDs w)).
Definition occupied (w : World) : list TEXTURE_INFO :=
  take (Z.to_nat (m_loadedTextures w)) (m_textureIDs w).

(** [stbi_load] decodes the file and its channel count is 3 or 4. *)
Definition loadable (w : World) (filename : string) : bool :=
  match stbi_files w !! filename with
  | Some img => bool_decide (colorChannels img = 3 ∨ colorChannels img = 4)
  | None => false
  end.

(** The context after [glGenTextures] and [glBindTexture(textureID)]. *)
Definition texture_generated (w : World) : World :=
  set_gl_texture_binding
    (<[gl_active_texture w := gl_names w (gl_generated w)]> (gl_texture_binding w))
    (set_gl_generated (S (gl_generated w)) w).

(** The state after a successful load. *)
Definition texture_stored (t : string) (w : World) : World :=
  let w1 := texture_generated w in
  let w2 := set_gl_texture_binding
              (<[gl_active_texture w1 := 0]> (gl_texture_binding w1)) w1 in
  set_m_loadedTextures (m_loadedTextures w + 1)
    (set_m_textureIDs
       (<[Z.to_nat (m_loadedTextures w) :=
            {| tex_tag := t; ID := gl_names w (gl_generated w) |}]>
          (m_textureIDs w)) w2).

Lemma texture_at_run i w info :
  0 ≤ i → m_textureIDs w !! Z.to_nat i = Some info →
  texture_at i w = Some (info, w).
Proof.
  intros Hi Hinfo. unfold texture_at.
  rewrite decide_True by done. by rewrite Hinfo.
Qed.

Lemma texture_at_past i w : capacity w ≤ i → texture_at i w = None.
Proof.
  intros Hi. unfold texture_at, capacity in *. case_decide; [|done].
  rewrite (lookup_ge_None_2 (m_textureIDs w)) by lia. done.
Qed.

Lemma texture_assign_run i f w info :
  0 ≤ i → m_textureIDs w !! Z.to_nat i = Some info →
  texture_assign i f w
  = Some (tt, set_m_textureIDs (<[Z.to_nat i := f info]> (m_textureIDs w)) w).
Proof.
  intros Hi Hinfo. unfold texture_assign.
  by rewrite (bind_run _ _ _ _ _ (texture_at_run _ _ _ Hi Hinfo)).
Qed.

Lemma texture_assign_past i f w :
  capacity w ≤ i → texture_assign i f w = None.
Proof.
  intros Hi. unfold texture_assign.
  by rewrite (bind_undefined _ _ _ (texture_at_past _ _ Hi)).
Qed.

Lemma CreateGLTexture_unreadable filename t w :
  stbi_files w !! filename = None →
  CreateGLTexture filename t w = Some (false, w).
Proof.
  intros Hf. unfold CreateGLTexture, stbi_load. munfold. by rewrite Hf.
Qed.

Lemma CreateGLTexture_unsupported filename t w img :
  stbi_files w !! filename = Some img →
  colorChannels img ≠ 3 → colorChannels img ≠ 4 →
  CreateGLTexture filename t w = Some (false, texture_generated w).
Proof.
  intros Hf H3 H4. unfold CreateGLTexture, stbi_load. munfold. rewrite Hf.
  unfold glGen, glBindTexture, gl_untracked. munfold. simpl.
  by rewrite !decide_False by done.
Qed.

Lemma supported_channels (img : image) :
  colorChannels img = 3 ∨ colorChannels img = 4 →
  (if decide (colorChannels img = 3) then gl_untracked;; mret true
   else if decide (colorChannels img = 4) then gl_untracked;; mret true
   else mret false) = (gl_untracked;; mret true).
Proof. intros [?|?]; repeat case_decide; done || lia. Qed.

Lemma CreateGLTexture_supported filename t w img :
  stbi_files w !! filename = Some img →
  colorChannels img = 3 ∨ colorChannels img = 4 →
  0 ≤ m_loadedTextures w < capacity w →
  CreateGLTexture filename t w = Some (true, texture_stored t w).
Proof.
  intros Hf Hch [Hlo Hhi]. unfold CreateGLTexture, stbi_load.
  destruct (lookup_lt_is_Some_2 (m_textureIDs w) (Z.to_nat (m_loadedTextures w)))
    as [info Hinfo]; [unfold capacity in Hhi; lia|].
  munfold. rewrite Hf.
  unfold glGen, glBindTexture, gl_untracked. munfold. simpl.
  pose proof (supported_channels img Hch) as Hs.
  unfold gl_untracked in Hs. munfold. rewrite Hs. simpl.
  rewrite texture_assign_run with (info := info) by done. simpl.
  rewrite texture_assign_run
    with (info := {| tex_tag := tex_tag info;
                     ID := gl_names w (gl_generated w) |}); simpl; [|done|].
  - by rewrite list_insert_insert_eq.
  - apply list_lookup_insert_eq. unfold capacity in Hhi. lia.
Qed.

Lemma CreateGLTexture_full filename t w img :
  stbi_files w !! filename = Some img →
  colorChannels img = 3 ∨ colorChannels img = 4 →
  capacity w ≤ m_loadedTextures w →
  CreateGLTexture filename t w = None.
Proof.
  intros Hf Hch Hfull. unfold CreateGLTexture, stbi_load.
  munfold. rewrite Hf.
  unfold glGen, glBindTexture, gl_untracked. munfold. simpl.
  pose proof (supported_channels img Hch) as Hs.
  unfold gl_untracked in Hs. munfold. rewrite Hs. simpl.
  by rewrite texture_assign_past.
Qed.

(** *** Lookups *)

(** The first slot of [l] tagged [t], numbering the slots from [index]. *)
Fixpoint first_match (result : TEXTURE_INFO → Z → Z) (l : list TEXTURE_INFO)
    (index : Z) (t : string) : Z :=
  match l with
  | [] => -1
  | info :: l' =>
      if decide (tex_tag info = t) then result info index
      else first_match result l' (index + 1) t
  end.

Lemma find_texture_run result remaining index t w :
  0 ≤ index →
  (Z.to_nat index + remaining ≤ length (m_textureIDs w))%nat →
  find_texture result remaining index t w
  = Some (first_match result
            (take remaining (drop (Z.to_nat index) (m_textureIDs w))) index t, w).
Proof.
  revert index. induction remaining as [|r IH]; intros index Hi Hlen; simpl.
  - done.
  - destruct (lookup_lt_is_Some_2 (m_textureIDs w) (Z.to_nat index))
      as [info Hinfo]; [lia|].
    rewrite (bind_run _ _ _ _ _ (texture_at_run _ _ _ Hi Hinfo)).
    rewrite (drop_S _ _ _ Hinfo). simpl.
    case_decide; [done|].
    rewrite IH by lia. by replace (Z.to_nat (index + 1)) with (S (Z.to_nat index)) by lia.
Qed.

Lemma FindTextureSlot_run t w :
  m_loadedTextures w ≤ capacity w →
  FindTextureSlot t w = Some (first_match (λ _ index, index) (occupied w) 0 t, w).
Proof.
  intros Hn. unfold FindTextureSlot, occupied, capacity in *.
  rewrite (bind_run _ _ w (m_loadedTextures w) w) by done.
  rewrite find_texture_run by lia. by rewrite drop_0.
Qed.


Lemma first_match_absent result l index t :
  t ∉ tex_tag <$> l → first_match result l index t = -1.
Proof.
  revert index. induction l as [|info l IH]; intros index Hnot; simpl; [done|].
  rewrite fmap_cons, not_elem_of_cons in Hnot. destruct Hnot as [Hne Hnot].
  rewrite decide_False by done. by apply IH.
Qed.


(** *** Sequences of loads *)



Lemma occupied_texture_stored t w :
  0 ≤ m_loadedTextures w < capacity w →
  occupied (texture_stored t w)
  = occupied w ++ [{| tex_tag := t; ID := gl_names w (gl_generated w) |}].
Proof.
  intros [Hlo Hhi]. unfold occupied, texture_stored, capacity in *. simpl.
  replace (Z.to_nat (m_loadedTextures w + 1))
    with (S (Z.to_nat (m_loadedTextures w))) by lia.
  rewrite (take_S_r _ _ {| tex_tag := t; ID := gl_names w (gl_generated w) |}).
  - by rewrite take_insert_ge by lia.
  - apply list_lookup_insert_eq. lia.
Qed.


Lemma loadable_false_iff w filename :
  loadable w filename = false ↔
    stbi_files w !! filename = None
    ∨ ∃ img, stbi_files w !! filename = Some img
             ∧ colorChannels img ≠ 3 ∧ colorChannels img ≠ 4.
Proof.
  unfold loadable. destruct (stbi_files w !! filename) as [img|].
  - rewrite bool_decide_eq_false. split.
    + intros Hch. right. exists img. split; [done|lia].
    + intros [?|(img' & [= <-] & H3 & H4)]; [done|lia].
  - split; [by left|done].
Qed.

Lemma loadable_true w filename :
  loadable w filename = true →
  ∃ img, stbi_files w !! filename = Some img
         ∧ (colorChannels img = 3 ∨ colorChannels img = 4).
Proof.
  unfold loadable. destruct (stbi_files w !! filename) as [img|]; [|done].
  rewrite bool_decide_eq_true. eauto.
Qed.


(** C6, as amended.  [CreateGLTexture] returns false exactly when the file
    does not decode or its channel count is neither 3 nor 4, and it then
    leaves the slot table and the count of loaded textures as they were.
    When the file decodes with 3 or 4 channels and fewer textures are loaded
    than the table has slots, it returns true, the first free slot receives
    the tag and the texture name generated by the call, every other slot is
    unchanged, and the count grows by one.  Nothing is thrown: the call
    returns a value in both cases. *)
Theorem CreateGLTexture_registry filename t w :
  (loadable w filename = false ↔
     stbi_files w !! filename = None
     ∨ ∃ img, stbi_files w !! filename = Some img
              ∧ colorChannels img ≠ 3 ∧ colorChannels img ≠ 4)
  ∧ (loadable w filename = false →
     ∃ w', CreateGLTexture filename t w = Some (false, w')
           ∧ m_textureIDs w' = m_textureIDs w
           ∧ m_loadedTextures w' = m_loadedTextures w)
  ∧ (loadable w filename = true → 0 ≤ m_loadedTextures w < capacity w →
     ∃ w', CreateGLTexture filename t w = Some (true, w')
           ∧ m_textureIDs w'
             = <[Z.to_nat (m_loadedTextures w) :=
                   {| tex_tag := t; ID := gl_names w (gl_generated w) |}]>
                 (m_textureIDs w)
           ∧ occupied w'
             = occupied w ++ [{| tex_tag := t; ID := gl_names w (gl_generated w) |}]
           ∧ m_loadedTextures w' = m_loadedTextures w + 1).
Proof.
  split_and!.
  - apply loadable_false_iff.
  - intros [Hf|(img & Hf & H3 & H4)]%loadable_false_iff.
    + exists w. by rewrite CreateGLTexture_unreadable.
    + exists (texture_generated w).
      by rewrite (CreateGLTexture_unsupported _ _ _ img).
  - intros (img & Hf & Hch)%loadable_true Hroom.
    exists (texture_stored t w).
    rewrite (CreateGLTexture_supported _ _ _ img) by done.
    split_and!; [done|done| |done].
    by apply occupied_texture_stored.
Qed.

Lemma SceneManager_new_registry p w :
  m_loadedTextures (SceneManager_new p w) = 0
  ∧ capacity (SceneManager_new p w) = 16
  ∧ occupied (SceneManager_new p w) = [].
Proof. done. Qed.



End Registry.

(** ** The uniform dispatcher *)

Section Dispatcher.
Context `{Glm}.
Local Open Scope Z_scope.

(** The matrix the specification names: translation, then the rotations
    about X, Y and Z, then the scale, multiplied left to right. *)
Definition TRS (S : vec3 float) (rx ry rz : float) (T : vec3 float) : mat4 :=
  glm_translate T
  *m glm_rotate (glm_radians rx) axisX
  *m glm_rotate (glm_radians ry) axisY
  *m glm_rotate (glm_radians rz) axisZ
  *m glm_scale S.

(** The manager behind pointer [s] after [name] was set to [value]; a null
    pointer stays null. *)
Definition uploaded (s : shader) (name : string) (value : UniformValue)
    (w : World) : World :=
  match manager s w with
  | Some sm =>
      set_manager s
        (Some {| m_programID := m_programID sm;
                 uniforms := <[name := value]> (uniforms sm) |}) w
  | None => w
  end.

(** The value of a uniform of the program behind pointer [s]. *)
Definition uniform_of (s : shader) (name : string) (w : World)
    : option UniformValue :=
  sm ← manager s w; uniforms sm !! name.

Lemma setUniform_run s name value w :
  is_Some (manager s w) →
  setUniform s name value w = Some (tt, uploaded s name value w).
Proof.
  intros [sm Hsm]. unfold setUniform, uploaded. by rewrite Hsm.
Qed.

Lemma guarded_setUniform s name value w :
  (p ← gets (manager s);
   if p is Some _ then setUniform s name value else mret tt) w
  = Some (tt, uploaded s name value w).
Proof.
  munfold. unfold setUniform, uploaded.
  destruct (manager s w) as [sm|] eqn:Hsm; [|done]. by rewrite Hsm.
Qed.

Lemma uniform_of_uploaded s name value w :
  is_Some (manager s w) →
  uniform_of s name (uploaded s name value w) = Some value.
Proof.
  intros [sm Hsm]. unfold uniform_of, uploaded. rewrite Hsm.
  destruct s; simpl; by rewrite lookup_insert_eq.
Qed.

Lemma uniform_of_uploaded_ne s name name' value w :
  name ≠ name' →
  uniform_of s name' (uploaded s name value w) = uniform_of s name' w.
Proof.
  intros Hne. unfold uniform_of, uploaded.
  destruct (manager s w) as [sm|] eqn:Hsm; [|by rewrite Hsm].
  destruct s; simpl in *; by rewrite lookup_insert_ne.
Qed.

Lemma uniform_of_uploaded_other s s' name name' value w :
  s ≠ s' →
  uniform_of s' name' (uploaded s name value w) = uniform_of s' name' w.
Proof.
  intros Hne. unfold uniform_of, uploaded.
  destruct (manager s w) as [sm|] eqn:Hsm; [|done].
  by destruct s, s'.
Qed.

Lemma guarded_main name value w :
  (p ← gets m_pShaderManager;
   if p is Some _ then setUniform MainShader name value else mret tt) w
  = Some (tt, uploaded MainShader name value w).
Proof. apply (guarded_setUniform MainShader). Qed.

Lemma guarded_depth name value w :
  (p ← gets m_pDepthShaderManager;
   if p is Some _ then setUniform DepthShader name value else mret tt) w
  = Some (tt, uploaded DepthShader name value w).
Proof. apply (guarded_setUniform DepthShader). Qed.

Lemma SetTransformations_run S rx ry rz T w :
  SetTransformations S rx ry rz T w
  = Some (tt, uploaded MainShader "model" (UMat4 (TRS S rx ry rz T)) w).
Proof. apply guarded_main. Qed.

Lemma SetModelMatrix_run S rx ry rz T w :
  SetModelMatrix S rx ry rz T w
  = Some (tt, uploaded DepthShader "model" (UMat4 (TRS S rx ry rz T))
                (uploaded MainShader "model" (UMat4 (TRS S rx ry rz T)) w)).
Proof.
  unfold SetModelMatrix. cbv zeta. fold (TRS S rx ry rz T).
  munfold. unfold setUniform, uploaded. simpl.
  destruct (m_pShaderManager w) as [sm|] eqn:Hm,
    (m_pDepthShaderManager w) as [sd|] eqn:Hd;
    do 3 (simpl; rewrite ?Hm, ?Hd); done.
Qed.

Lemma uploaded_null s name value w :
  manager s w = None → uploaded s name value w = w.
Proof. intros Hs. unfold uploaded. by rewrite Hs. Qed.


(** Under any action of matrices on points that turns products into
    compositions, [TRS] scales first, then rotates about Z, about Y and
    about X, and translates last. *)
Lemma TRS_application_order {point : Type} (transform : mat4 → point → point)
    S rx ry rz T p :
  (∀ a b q, transform (a *m b) q = transform a (transform b q)) →
  transform (TRS S rx ry rz T) p
  = transform (glm_translate T)
      (transform (glm_rotate (glm_radians rx) axisX)
         (transform (glm_rotate (glm_radians ry) axisY)
            (transform (glm_rotate (glm_radians rz) axisZ)
               (transform (glm_scale S) p)))).
Proof. intros Hmul. unfold TRS. by rewrite !Hmul. Qed.

Lemma SetShaderColor_run r g b a w :
  SetShaderColor r g b a w
  = Some (tt, uploaded MainShader "objectColor" (UVec4 (Vec4 r g b a))
                (uploaded MainShader "bUseTexture" (UInt 0) w)).
Proof.
  unfold SetShaderColor. cbv zeta. munfold. unfold setUniform, uploaded. simpl.
  destruct (m_pShaderManager w) as [sm|] eqn:Hm;
    do 3 (simpl; rewrite ?Hm); done.
Qed.

Lemma SetTextureUVScale_run u v w :
  SetTextureUVScale u v w
  = Some (tt, uploaded MainShader "UVscale" (UVec2 (Vec2 u v)) w).
Proof. apply guarded_main. Qed.

(** The slot a lookup returns is -1 or the index of an occupied slot with
    the tag. *)
Lemma first_match_slot l index t :
  first_match (λ _ i, i) l index t = -1
  ∨ ∃ k info, first_match (λ _ i, i) l index t = index + Z.of_nat k
              ∧ l !! k = Some info ∧ tex_tag info = t.
Proof.
  revert index. induction l as [|info l IH]; intros index; simpl; [by left|].
  case_decide as Ht.
  - right. exists 0%nat, info. split_and!; [lia|done..].
  - destruct (IH (index + 1)) as [Hm|(k & info' & Hk & Hl & Hi)]; [by left|].
    right. exists (S k), info'. split_and!; [lia|done..].
Qed.

Lemma uploaded_registry s name value w :
  m_loadedTextures (uploaded s name value w) = m_loadedTextures w
  ∧ m_textureIDs (uploaded s name value w) = m_textureIDs w.
Proof. unfold uploaded. by destruct (manager s w), s. Qed.

Lemma occupied_uploaded s name value w :
  occupied (uploaded s name value w) = occupied w.
Proof.
  unfold occupied. by destruct (uploaded_registry s name value w) as [-> ->].
Qed.

Lemma capacity_uploaded s name value w :
  capacity (uploaded s name value w) = capacity w.
Proof.
  unfold capacity. by destruct (uploaded_registry s name value w) as [_ ->].
Qed.

Lemma SetShaderTexture_null t w :
  m_pShaderManager w = None → SetShaderTexture t w = Some (tt, w).
Proof. intros Hm. unfold SetShaderTexture. munfold. by rewrite Hm. Qed.

Lemma SetShaderTexture_miss t w :
  m_loadedTextures w ≤ capacity w →
  t ∉ tex_tag <$> occupied w →
  SetShaderTexture t w = Some (tt, uploaded MainShader "bUseTexture" (UInt 1) w).
Proof.
  intros Hok Ht. destruct (m_pShaderManager w) as [sm|] eqn:Hm.
  - unfold SetShaderTexture.
    rewrite (bind_run _ _ w (Some sm) w) by (munfold; by rewrite Hm).
    rewrite (bind_run _ _ w tt (uploaded MainShader "bUseTexture" (UInt 1) w))
      by (apply setUniform_run; simpl; by rewrite Hm).
    rewrite (bind_run _ _ _ _ _ (FindTextureSlot_run t _
      ltac:(by rewrite capacity_uploaded, (proj1 (uploaded_registry _ _ _ _))))).
    rewrite occupied_uploaded, first_match_absent by done.
    rewrite decide_False by lia. done.
  - rewrite uploaded_null by done. by apply SetShaderTexture_null.
Qed.

(** C5, as amended.  For a tag that no occupied slot carries,
    [SetShaderTexture] sets the uniform [bUseTexture] of the main shader to
    true and changes nothing else: the active texture unit, the texture
    bound to each unit, the sampler uniform [objectTexture] and every
    uniform other than [bUseTexture] stay as they were. *)
Theorem SetShaderTexture_unknown_tag t w :
  m_loadedTextures w ≤ capacity w →
  t ∉ tex_tag <$> occupied w →
  ∃ w', SetShaderTexture t w = Some (tt, w')
    ∧ w' = uploaded MainShader "bUseTexture" (UInt 1) w
    ∧ gl_active_texture w' = gl_active_texture w
    ∧ gl_texture_binding w' = gl_texture_binding w
    ∧ uniform_of MainShader "objectTexture" w'
      = uniform_of MainShader "objectTexture" w
    ∧ (∀ name, name ≠ "bUseTexture" →
         uniform_of MainShader name w' = uniform_of MainShader name w)
    ∧ (∀ name, uniform_of DepthShader name w' = uniform_of DepthShader name w)
    ∧ uniform_of MainShader "bUseTexture" w'
      = (λ _, UInt 1) <$> m_pShaderManager w.
Proof.
  intros Hok Ht. eexists. split; [by apply SetShaderTexture_miss|].
  split; [done|]. split_and!.
  - unfold uploaded. simpl. by destruct (m_pShaderManager w).
  - unfold uploaded. simpl. by destruct (m_pShaderManager w).
  - by apply uniform_of_uploaded_ne.
  - intros name Hne. by apply uniform_of_uploaded_ne.
  - intros name. by apply uniform_of_uploaded_other.
  - destruct (m_pShaderManager w) as [sm|] eqn:Hsm.
    + by rewrite uniform_of_uploaded.
    + rewrite uploaded_null by done. unfold uniform_of. simpl. by rewrite Hsm.
Qed.

(** C10.  With a null shader-manager pointer, [SetTransformations],
    [SetShaderColor], [SetShaderTexture] and [SetTextureUVScale] each return
    normally and leave the whole state as it was: no uniform is written, no
    texture unit is activated, no texture is bound. *)
Theorem null_manager_no_effect w S rx ry rz T r g b a t u v :
  m_pShaderManager w = None →
  SetTransformations S rx ry rz T w = Some (tt, w)
  ∧ SetShaderColor r g b a w = Some (tt, w)
  ∧ SetShaderTexture t w = Some (tt, w)
  ∧ SetTextureUVScale u v w = Some (tt, w).
Proof.
  intros Hnull. split_and!.
  - by rewrite SetTransformations_run, uploaded_null.
  - rewrite SetShaderColor_run.
    rewrite (uploaded_null _ "bUseTexture") by done. by rewrite uploaded_null.
  - by apply SetShaderTexture_null.
  - by rewrite SetTextureUVScale_run, uploaded_null.
Qed.

End Dispatcher.

(** ** The two passes of a frame *)

Section Passes.
Context `{Glm}.
Local Open Scope Z_scope.

(** Total correctness of a command: from a state of [P] it returns, in a
    state of [Q]. *)
Definition triple {A} (P : World → Prop) (c : M A) (Q : A → World → Prop)
    : Prop :=
  ∀ w, P w → ∃ a w', c w = Some (a, w') ∧ Q a w'.

Lemma triple_bind {A B} P (c : M A) Q (k : A → M B) R :
  triple P c Q → (∀ a, triple (Q a) (k a) R) → triple P (c ≫= k) R.
Proof.
  intros Hc Hk w HP. destruct (Hc w HP) as (a & w' & Hrun & HQ).
  destruct (Hk a w' HQ) as (b & w'' & Hrun' & HR).
  exists b, w''. by rewrite (bind_run _ _ _ _ _ Hrun).
Qed.

Lemma triple_consequence {A} (P P' : World → Prop) (c : M A)
    (Q Q' : A → World → Prop) :
  (∀ w, P' w → P w) → (∀ a w, Q a w → Q' a w) →
  triple P c Q → triple P' c Q'.
Proof.
  intros HP HQ Hc w Hw. destruct (Hc w (HP w Hw)) as (a & w' & Hrun & Hpost).
  exists a, w'. auto.
Qed.

Lemma triple_ret {A} (P : World → Prop) (a : A) :
  triple P (mret a) (λ _, P).
Proof. intros w HP. by exists a, w. Qed.

Lemma triple_gets {A} (P : World → Prop) (f : World → A) :
  triple P (gets f) (λ _, P).
Proof. intros w HP. by exists (f w), w. Qed.

(** What a pass relies on and what it makes progress on: both managers are
    there, the registry is within its table, [cur] is the program in use,
    [mm] and [md] are the ["model"] uniforms of the main and of the depth
    shader, and [ds] are the draw calls issued so far. *)
Definition pass_state (cur : option shader) (mm md : option UniformValue)
    (ds : list draw) (w : World) : Prop :=
  is_Some (m_pShaderManager w) ∧ is_Some (m_pDepthShaderManager w)
  ∧ m_loadedTextures w ≤ capacity w
  ∧ gl_program w = cur
  ∧ uniform_of MainShader "model" w = mm
  ∧ uniform_of DepthShader "model" w = md
  ∧ gl_draws w = ds.

Definition between (cur : option shader) (ds : list draw) (w : World) : Prop :=
  ∃ mm md, pass_state cur mm md ds w.

(** The draw call recorded while [cur] is in use. *)
Definition drawn (k : mesh) (cur : option shader) (mm md : option UniformValue)
    : draw :=
  {| draw_mesh := k; draw_program := cur;
     draw_model := match cur with
                   | Some MainShader => mm
                   | Some DepthShader => md
                   | None => None
                   end |}.

Lemma triple_between {A} cur ds (c : M A) Q :
  (∀ mm md, triple (pass_state cur mm md ds) c Q) →
  triple (between cur ds) c Q.
Proof. intros Hc w (mm & md & Hw). by apply (Hc mm md). Qed.

Lemma pass_state_between cur mm md ds w :
  pass_state cur mm md ds w → between cur ds w.
Proof. intros Hw. by exists mm, md. Qed.

(** *** Steps that leave the pass state alone *)

Definition quiet {A} (c : M A) : Prop :=
  ∀ cur mm md ds,
    triple (pass_state cur mm md ds) c (λ _, pass_state cur mm md ds).

Lemma quiet_triple {A} (c : M A) cur mm md ds :
  quiet c → triple (pass_state cur mm md ds) c (λ _, pass_state cur mm md ds).
Proof. intros Hc. apply Hc. Qed.

Lemma quiet_bind {A B} (c : M A) (k : A → M B) :
  quiet c → (∀ a, quiet (k a)) → quiet (c ≫= k).
Proof.
  intros Hc Hk cur mm md ds. eapply triple_bind; [apply Hc|].
  intros a. apply Hk.
Qed.

Lemma quiet_ret {A} (a : A) : quiet (mret a).
Proof. intros cur mm md ds. apply triple_ret. Qed.

Lemma quiet_gets {A} (f : World → A) : quiet (gets f).
Proof. intros cur mm md ds. apply triple_gets. Qed.

Lemma quiet_untracked : quiet gl_untracked.
Proof. apply quiet_ret. Qed.

Lemma quiet_glActiveTexture texunit : quiet (glActiveTexture texunit).
Proof. intros cur mm md ds w Hw. by exists tt, (set_gl_active_texture texunit w). Qed.

Lemma quiet_glBindTexture texture : quiet (glBindTexture texture).
Proof. intros cur mm md ds w Hw. by eexists tt, _. Qed.

Lemma quiet_glBindFramebuffer fb : quiet (glBindFramebuffer fb).
Proof. intros cur mm md ds w Hw. by eexists tt, _. Qed.

Lemma pass_state_uploaded s name value cur mm md ds w :
  name ≠ "model" →
  pass_state cur mm md ds w →
  pass_state cur mm md ds (uploaded s name value w).
Proof.
  intros Hne (Hm & Hd & Hreg & Hcur & Hmm & Hmd & Hds).
  assert (∀ s', uniform_of s' "model" (uploaded s name value w)
                = uniform_of s' "model" w) as Hmodel.
  { intros s'. destruct (decide (s = s')) as [<-|Hs].
    - by apply uniform_of_uploaded_ne.
    - by apply uniform_of_uploaded_other. }
  unfold pass_state. rewrite !Hmodel, capacity_uploaded.
  rewrite (proj1 (uploaded_registry _ _ _ _)).
  destruct Hm as [sm Hsm], Hd as [sd Hsd].
  unfold uploaded. destruct s; simpl; rewrite ?Hsm, ?Hsd; simpl;
    rewrite ?Hsm, ?Hsd; eauto 10.
Qed.

Lemma quiet_setUniform s name value :
  name ≠ "model" → quiet (setUniform s name value).
Proof.
  intros Hne cur mm md ds w Hw. exists tt, (uploaded s name value w).
  split; [|by apply pass_state_uploaded].
  apply setUniform_run. destruct Hw as (Hm & Hd & _). by destruct s.
Qed.

Lemma quiet_SetShaderColor r g b a : quiet (SetShaderColor r g b a).
Proof.
  intros cur mm md ds w Hw. eexists tt, _.
  split; [apply SetShaderColor_run|].
  by do 2 (apply pass_state_uploaded; [done|]).
Qed.

Lemma quiet_SetTextureUVScale u v : quiet (SetTextureUVScale u v).
Proof.
  intros cur mm md ds w Hw. eexists tt, _.
  split; [apply SetTextureUVScale_run|].
  by apply pass_state_uploaded.
Qed.

Lemma quiet_set_material a s d sp sh : quiet (set_material a s d sp sh).
Proof.
  unfold set_material.
  repeat (apply quiet_bind; [|intros _]); by apply quiet_setUniform.
Qed.

Lemma quiet_SetShaderMaterial t : quiet (SetShaderMaterial t).
Proof.
  unfold SetShaderMaterial. repeat case_decide; apply quiet_set_material.
Qed.

Lemma quiet_SetShaderTexture t : quiet (SetShaderTexture t).
Proof.
  intros cur mm md ds w Hw.
  pose proof Hw as ([sm Hsm] & _ & Hreg & _).
  unfold SetShaderTexture.
  rewrite (bind_run _ _ w (Some sm) w) by (munfold; by rewrite Hsm).
  set (w1 := uploaded MainShader "bUseTexture" (UInt 1) w).
  assert (pass_state cur mm md ds w1) as Hw1 by by apply pass_state_uploaded.
  rewrite (bind_run _ _ w tt w1) by (apply setUniform_run; simpl; by rewrite Hsm).
  rewrite (bind_run _ _ _ _ _ (FindTextureSlot_run t w1 (proj1 (proj2 (proj2 Hw1))))).
  destruct (first_match_slot (occupied w1) 0 t)
    as [->|(k & info & -> & Hk & Hinfo)].
  - rewrite decide_False by lia. by exists tt, w1.
  - rewrite decide_True by lia.
    apply lookup_take_Some in Hk as [Hk _].
    unfold glActiveTexture, glBindTexture. munfold.
    rewrite (texture_at_run _ _ info)
      by first [lia | by simpl; rewrite Z.add_0_l, Nat2Z.id].
    eexists tt, _. split.
    + apply setUniform_run. destruct Hw1 as (Hm1 & _). done.
    + apply pass_state_uploaded; [done|]. exact Hw1.
Qed.

(** *** Steps that advance the pass state *)

Lemma pass_state_model_main v cur mm md ds w :
  pass_state cur mm md ds w →
  pass_state cur (Some v) md ds (uploaded MainShader "model" v w).
Proof.
  intros (Hm & Hd & Hreg & Hcur & Hmm & Hmd & Hds).
  unfold pass_state.
  rewrite uniform_of_uploaded, uniform_of_uploaded_other by done.
  rewrite capacity_uploaded, (proj1 (uploaded_registry _ _ _ _)).
  destruct Hm as [sm Hsm]. unfold uploaded. simpl. rewrite Hsm. simpl. eauto 10.
Qed.

Lemma pass_state_model_depth v cur mm md ds w :
  pass_state cur mm md ds w →
  pass_state cur mm (Some v) ds (uploaded DepthShader "model" v w).
Proof.
  intros (Hm & Hd & Hreg & Hcur & Hmm & Hmd & Hds).
  unfold pass_state.
  rewrite uniform_of_uploaded, uniform_of_uploaded_other by done.
  rewrite capacity_uploaded, (proj1 (uploaded_registry _ _ _ _)).
  destruct Hd as [sd Hsd]. unfold uploaded. simpl. rewrite Hsd. simpl. eauto 10.
Qed.

Lemma triple_SetTransformations S rx ry rz T cur mm md ds :
  triple (pass_state cur mm md ds) (SetTransformations S rx ry rz T)
    (λ _, pass_state cur (Some (UMat4 (TRS S rx ry rz T))) md ds).
Proof.
  intros w Hw. eexists tt, _. split; [apply SetTransformations_run|].
  by eapply pass_state_model_main.
Qed.

Lemma triple_SetModelMatrix S rx ry rz T cur mm md ds :
  triple (pass_state cur mm md ds) (SetModelMatrix S rx ry rz T)
    (λ _, pass_state cur (Some (UMat4 (TRS S rx ry rz T)))
            (Some (UMat4 (TRS S rx ry rz T))) ds).
Proof.
  intros w Hw. eexists tt, _. split; [apply SetModelMatrix_run|].
  by eapply pass_state_model_depth, pass_state_model_main.
Qed.

Lemma triple_use s cur mm md ds :
  triple (pass_state cur mm md ds) (use s)
    (λ _, pass_state (Some s) mm md ds).
Proof.
  intros w (Hm & Hd & Hreg & Hcur & Hmm & Hmd & Hds).
  exists tt, (set_gl_program (Some s) w). split.
  - unfold use. destruct Hm as [sm Hsm], Hd as [sd Hsd].
    destruct s; simpl; by rewrite ?Hsm, ?Hsd.
  - done.
Qed.

Lemma triple_DrawMesh k cur mm md ds :
  triple (pass_state cur mm md ds) (DrawMesh k)
    (λ _, pass_state cur mm md (ds ++ [drawn k cur mm md])).
Proof.
  intros w (Hm & Hd & Hreg & Hcur & Hmm & Hmd & Hds).
  eexists tt, _. split; [done|].
  unfold pass_state. simpl. split_and!; [done..|].
  rewrite Hds. f_equal. unfold drawn. rewrite Hcur. f_equal. f_equal.
  destruct cur as [[]|]; done.
Qed.

(** A loop keeps an invariant indexed by the iterations done. *)
Lemma triple_for_each (I : list Z → World → Prop) (body : Z → M unit) l :
  (∀ pre i, triple (I pre) (body i) (λ _, I (pre ++ [i]))) →
  ∀ pre, triple (I pre) (for_each l body) (λ _, I (pre ++ l)).
Proof.
  intros Hbody. induction l as [|i rest IH]; intros pre; simpl.
  - rewrite app_nil_r. apply triple_ret.
  - eapply triple_bind; [apply Hbody|]. intros [].
    eapply triple_consequence; [done| |apply IH].
    intros [] w. by rewrite <- app_assoc.
Qed.

(** The sixty keys: one box per row and column. *)
Definition key_matrix (r c : Z) : mat4 :=
  TRS (Vec3 KEY_WIDTH KEY_HEIGHT KEY_DEPTH) (flit 0 1) (flit 0 1) (flit 0 1)
    (Vec3 (KEY_START_X +f float_of_int c *f (KEY_WIDTH +f KEY_SPACING))
          KEY_Y
          (KEY_START_Z +f float_of_int r *f (KEY_DEPTH +f KEY_SPACING))).

Definition key_grid : list (mesh * mat4) :=
  r ← seqZ 0 KEY_ROWS; c ← seqZ 0 KEY_COLS; [(BoxMesh, key_matrix r c)].

(** A draw of mesh [k] under program [s] with model matrix [m]. *)
Definition draw_of (s : shader) (o : mesh * mat4) : draw :=
  {| draw_mesh := o.1; draw_program := Some s;
     draw_model := Some (UMat4 o.2) |}.

Lemma triple_key_loops s (body : Z → Z → M unit) ds :
  (∀ r c ds', triple (between (Some s) ds') (body r c)
     (λ _, between (Some s) (ds' ++ [draw_of s (BoxMesh, key_matrix r c)]))) →
  triple (between (Some s) ds)
    (for_range KEY_ROWS (λ r, for_range KEY_COLS (λ c, body r c)))
    (λ _, between (Some s) (ds ++ (draw_of s <$> key_grid))).
Proof.
  intros Hbody. unfold for_range, key_grid.
  pose (I := λ rows : list Z, between (Some s)
    (ds ++ (draw_of s <$> (r ← rows; c ← seqZ 0 KEY_COLS; [(BoxMesh, key_matrix r c)])))).
  apply triple_consequence
    with (P := I []) (Q := λ _, I ([] ++ seqZ 0 KEY_ROWS)).
  - intros w Hw. unfold I. simpl. by rewrite app_nil_r.
  - intros [] w Hw. exact Hw.
  - apply triple_for_each. intros rows r.
    pose (J := λ cols : list Z, between (Some s)
      (ds ++ (draw_of s <$> (r' ← rows; c ← seqZ 0 KEY_COLS; [(BoxMesh, key_matrix r' c)]))
          ++ (draw_of s <$> (c ← cols; [(BoxMesh, key_matrix r c)])))).
    apply triple_consequence
      with (P := J []) (Q := λ _, J ([] ++ seqZ 0 KEY_COLS)).
    + intros w Hw. unfold J. simpl. by rewrite app_nil_r.
    + intros [] w Hw. unfold J in Hw. unfold I. rewrite app_nil_l in Hw.
      by rewrite bind_app, bind_singleton, fmap_app.
    + apply triple_for_each. intros cols c. unfold J.
      eapply triple_consequence; [done| |apply Hbody].
      intros [] w Hw. cbv beta in Hw.
      rewrite bind_app, bind_singleton, fmap_app.
      rewrite list_fmap_singleton. by rewrite <- !app_assoc in Hw.
Qed.

(** *** The objects of the scene *)

Definition object (k : mesh) (S R T : vec3 float) : mesh * mat4 :=
  (k, TRS S (v3x R) (v3y R) (v3z R) T).

Definition wall_position : vec3 float :=
  Vec3 (flit 0 1)
       (FLOOR_Y +f (FLOOR_HEIGHT /f flit 20 1) +f (flit 260 1 /f flit 20 1))
       (flit (-2125) 2).

Definition desk_objects : list (mesh * mat4) :=
  [object BoxMesh DESK_SCALE DESK_ROTATION DESK_POSITION].
Definition mug_objects : list (mesh * mat4) :=
  [object CylinderMesh MUG_BODY_SCALE MUG_BODY_ROTATION MUG_BODY_POSITION;
   object TorusMesh MUG_HANDLE_SCALE MUG_HANDLE_ROTATION MUG_HANDLE_POSITION].
Definition lamp_objects : list (mesh * mat4) :=
  [object CylinderMesh LAMP_BASE_SCALE LAMP_BASE_ROTATION LAMP_BASE_POSITION;
   object CylinderMesh LAMP_STEM_SCALE LAMP_STEM_ROTATION LAMP_STEM_POSITION;
   object ConeMesh LAMP_SHADE_SCALE LAMP_SHADE_ROTATION LAMP_SHADE_POSITION].
Definition laptop_objects : list (mesh * mat4) :=
  [object BoxMesh LAPTOP_BASE_SCALE LAPTOP_BASE_ROTATION LAPTOP_BASE_POSITION;
   object BoxMesh LAPTOP_SCREEN_SCALE LAPTOP_SCREEN_ROTATION LAPTOP_SCREEN_POSITION;
   object BoxMesh DISPLAY_PANEL_SCALE DISPLAY_PANEL_ROTATION DISPLAY_PANEL_POSITION]
  ++ key_grid.
Definition floor_objects : list (mesh * mat4) :=
  [object BoxMesh FLOOR_SCALE FLOOR_ROTATION FLOOR_POSITION].
Definition wall_objects : list (mesh * mat4) :=
  [object BoxMesh WALL_SCALE WALL_ROTATION wall_position].

(** The objects in the order the depth pass draws them, and in the order
    the lit pass does: the lamp comes before the laptop in the first and
    after it in the second. *)
Definition depth_pass_objects : list (mesh * mat4) :=
  desk_objects ++ mug_objects ++ lamp_objects ++ laptop_objects
  ++ floor_objects ++ wall_objects.
Definition lit_pass_objects : list (mesh * mat4) :=
  desk_objects ++ mug_objects ++ laptop_objects ++ lamp_objects
  ++ floor_objects ++ wall_objects.

Ltac solve_quiet :=
  first
    [ apply quiet_untracked | apply quiet_glBindFramebuffer
    | apply quiet_glActiveTexture | apply quiet_glBindTexture
    | apply quiet_gets | apply quiet_ret
    | apply quiet_SetShaderTexture | apply quiet_SetTextureUVScale
    | apply quiet_SetShaderMaterial | apply quiet_SetShaderColor
    | apply quiet_setUniform; discriminate
    | apply quiet_bind; [solve_quiet | intros ?; solve_quiet] ].

Ltac basic_rule :=
  first
    [ apply triple_SetTransformations | apply triple_SetModelMatrix
    | apply triple_use | apply triple_DrawMesh
    | apply quiet_triple; solve_quiet ].

(** Run the leading steps of a chain of binds with the basic rules. *)
Ltac basic_steps :=
  repeat (eapply triple_bind; [basic_rule | intros ?; cbv beta]).

Lemma depth_key_body r c ds :
  triple (between (Some DepthShader) ds)
    (let x := KEY_START_X +f float_of_int c *f (KEY_WIDTH +f KEY_SPACING) in
     let y := KEY_Y in
     let z := KEY_START_Z +f float_of_int r *f (KEY_DEPTH +f KEY_SPACING) in
     SetModelMatrix (Vec3 KEY_WIDTH KEY_HEIGHT KEY_DEPTH)
       (flit 0 1) (flit 0 1) (flit 0 1) (Vec3 x y z);;
     DrawMesh BoxMesh)
    (λ _, between (Some DepthShader)
            (ds ++ [draw_of DepthShader (BoxMesh, key_matrix r c)])).
Proof.
  apply triple_between. intros mm md. cbv zeta. basic_steps.
  eapply triple_consequence; [done| |basic_rule].
  intros [] w Hw. eapply pass_state_between, Hw.
Qed.

Lemma lit_key_body r c ds :
  triple (between (Some MainShader) ds)
    (let x := KEY_START_X +f float_of_int c *f (KEY_WIDTH +f KEY_SPACING) in
     let y := KEY_Y in
     let z := KEY_START_Z +f float_of_int r *f (KEY_DEPTH +f KEY_SPACING) in
     SetTransformations (Vec3 KEY_WIDTH KEY_HEIGHT KEY_DEPTH)
       (flit 0 1) (flit 0 1) (flit 0 1) (Vec3 x y z);;
     SetShaderColor (v3x KEY_COLOR) (v3y KEY_COLOR) (v3z KEY_COLOR) (flit 10 1);;
     setUniform MainShader "bUseLighting" (UInt 1);;
     DrawMesh BoxMesh)
    (λ _, between (Some MainShader)
            (ds ++ [draw_of MainShader (BoxMesh, key_matrix r c)])).
Proof.
  apply triple_between. intros mm md. cbv zeta. basic_steps.
  eapply triple_consequence; [done| |basic_rule].
  intros [] w Hw. eapply pass_state_between, Hw.
Qed.

(** The depth pass issues the draws of [depth_pass_objects], each under
    the depth shader with its model matrix. *)
Lemma RenderDepthPass_draws L cur ds :
  triple (between cur ds) (RenderDepthPass L)
    (λ _, between (Some DepthShader)
            (ds ++ (draw_of DepthShader <$> depth_pass_objects))).
Proof.
  apply triple_between. intros mm md. unfold RenderDepthPass. basic_steps.
  eapply triple_bind.
  { eapply triple_consequence;
      [apply pass_state_between|done|apply (triple_key_loops DepthShader)].
    intros r c ds'. apply depth_key_body. }
  intros []. apply triple_between. intros mm' md'. basic_steps.
  eapply triple_consequence; [done| |basic_rule].
  intros [] w Hw. eapply pass_state_between.
  unfold depth_pass_objects, desk_objects, mug_objects, lamp_objects,
    laptop_objects, floor_objects, wall_objects.
  rewrite !fmap_app. simpl. rewrite <- !app_assoc in Hw. exact Hw.
Qed.

Ltac finish_objects :=
  eapply triple_consequence; [done| |basic_rule];
  intros [] w Hw; eapply pass_state_between;
  simpl; rewrite <- ?app_assoc in Hw; exact Hw.

Lemma DrawDeskSurface_draws ds :
  triple (between (Some MainShader) ds) DrawDeskSurface
    (λ _, between (Some MainShader) (ds ++ (draw_of MainShader <$> desk_objects))).
Proof.
  apply triple_between. intros mm md. unfold DrawDeskSurface. basic_steps.
  finish_objects.
Qed.

Lemma DrawCoffeeMug_draws ds :
  triple (between (Some MainShader) ds) DrawCoffeeMug
    (λ _, between (Some MainShader) (ds ++ (draw_of MainShader <$> mug_objects))).
Proof.
  apply triple_between. intros mm md. unfold DrawCoffeeMug. basic_steps.
  finish_objects.
Qed.

Lemma DrawLaptop_draws ds :
  triple (between (Some MainShader) ds) DrawLaptop
    (λ _, between (Some MainShader)
            (ds ++ (draw_of MainShader <$> laptop_objects))).
Proof.
  apply triple_between. intros mm md. unfold DrawLaptop. basic_steps.
  eapply triple_consequence;
    [apply pass_state_between| |apply (triple_key_loops MainShader)].
  - intros [] w Hw. unfold laptop_objects. rewrite fmap_app. simpl.
    rewrite <- !app_assoc in Hw. exact Hw.
  - intros r c ds'. apply lit_key_body.
Qed.

Lemma DrawDeskLamp_draws ds :
  triple (between (Some MainShader) ds) DrawDeskLamp
    (λ _, between (Some MainShader) (ds ++ (draw_of MainShader <$> lamp_objects))).
Proof.
  apply triple_between. intros mm md. unfold DrawDeskLamp. basic_steps.
  finish_objects.
Qed.

Lemma DrawFloor_draws ds :
  triple (between (Some MainShader) ds) DrawFloor
    (λ _, between (Some MainShader) (ds ++ (draw_of MainShader <$> floor_objects))).
Proof.
  apply triple_between. intros mm md. unfold DrawFloor. basic_steps.
  finish_objects.
Qed.

Lemma DrawBackground_draws ds :
  triple (between (Some MainShader) ds) DrawBackground
    (λ _, between (Some MainShader) (ds ++ (draw_of MainShader <$> wall_objects))).
Proof.
  apply triple_between. intros mm md. unfold DrawBackground. cbv zeta.
  basic_steps. finish_objects.
Qed.

(** The lit pass issues the draws of [lit_pass_objects], each under the
    main shader with its model matrix. *)
Lemma RenderScene_draws L cur ds :
  triple (between cur ds) (RenderScene L)
    (λ _, between (Some MainShader)
            (ds ++ (draw_of MainShader <$> lit_pass_objects))).
Proof.
  apply triple_between. intros mm md. unfold RenderScene. basic_steps.
  eapply triple_bind.
  { eapply triple_consequence;
      [apply pass_state_between|done|apply DrawDeskSurface_draws]. }
  intros []. eapply triple_bind; [apply DrawCoffeeMug_draws|].
  intros []. eapply triple_bind; [apply DrawLaptop_draws|].
  intros []. eapply triple_bind; [apply DrawDeskLamp_draws|].
  intros []. eapply triple_bind; [apply DrawFloor_draws|].
  intros []. eapply triple_consequence; [done| |apply DrawBackground_draws].
  intros [] w Hw. unfold lit_pass_objects. rewrite !fmap_app.
  by rewrite <- !app_assoc in Hw.
Qed.

(** The lamp group and the laptop group trade places; as collections the
    two passes draw the same objects with the same matrices. *)
Lemma pass_objects_permutation : depth_pass_objects ≡ₚ lit_pass_objects.
Proof.
  unfold depth_pass_objects, lit_pass_objects.
  do 2 f_equiv.
  rewrite (app_assoc lamp_objects), (app_assoc laptop_objects).
  f_equiv. apply Permutation_app_comm.
Qed.

(** C2.  In a frame with both shader managers present and the texture
    registry within its table, the depth pass and then the lit pass both
    return; the depth pass issues exactly the draw calls of
    [depth_pass_objects] under the depth shader and the lit pass exactly
    those of [lit_pass_objects] under the main shader, each draw seeing as
    ["model"] uniform of its shader the matrix [Translate * RotateX *
    RotateY * RotateZ * Scale] of its object; the two object lists hold the
    same objects with the same matrices (they are permutations of each
    other: only the lamp and the laptop trade places). *)
Theorem depth_and_lit_pass_draw_the_same_objects L w :
  is_Some (m_pShaderManager w) → is_Some (m_pDepthShaderManager w) →
  m_loadedTextures w ≤ capacity w →
  ∃ w1 w2,
    RenderDepthPass L w = Some (tt, w1)
    ∧ RenderScene L w1 = Some (tt, w2)
    ∧ gl_draws w1 = gl_draws w ++ (draw_of DepthShader <$> depth_pass_objects)
    ∧ gl_draws w2 = gl_draws w1 ++ (draw_of MainShader <$> lit_pass_objects)
    ∧ depth_pass_objects ≡ₚ lit_pass_objects.
Proof.
  intros Hm Hd Hreg.
  destruct (RenderDepthPass_draws L (gl_program w) (gl_draws w) w)
    as ([] & w1 & Hrun1 & (mm1 & md1 & Hw1)).
  { exists (uniform_of MainShader "model" w), (uniform_of DepthShader "model" w).
    by repeat split. }
  destruct (RenderScene_draws L (Some DepthShader) (gl_draws w1) w1)
    as ([] & w2 & Hrun2 & (mm2 & md2 & Hw2)).
  { exists mm1, md1. destruct Hw1 as (?&?&?&?&?&?&?). by repeat split. }
  exists w1, w2. split_and!; [done|done|..].
  - by destruct Hw1 as (?&?&?&?&?&?&?).
  - by destruct Hw2 as (?&?&?&?&?&?&?).
  - apply pass_objects_permutation.
Qed.

End Passes.

(** ** Material lookup *)

Section MaterialLookup.
Context `{Glm}.

Lemma FindMaterial_scan_miss ms t material :
  Forall (λ m, tag m ≠ t) ms →
  FindMaterial_scan ms t material = (false, material).
Proof.
  induction 1 as [|m ms Hm _ IH]; simpl; [done|].
  by rewrite decide_False.
Qed.

Lemma FindMaterial_scan_first pre m post t material :
  Forall (λ m', tag m' ≠ t) pre → tag m = t →
  FindMaterial_scan (pre ++ m :: post) t material
  = (true, copy_material m material).
Proof.
  induction 1 as [|m' pre Hm' _ IH]; simpl; intros Hm.
  - by rewrite decide_True.
  - rewrite decide_False by done. by apply IH.
Qed.

(** The part of the lookup that holds: a match makes it return true with
    the fields of the first-inserted material of that tag. *)
Lemma FindMaterial_first pre m post t material :
  Forall (λ m', tag m' ≠ t) pre → tag m = t →
  FindMaterial (pre ++ m :: post) t material
  = (true, copy_material m material).
Proof.
  intros Hpre Hm. unfold FindMaterial.
  rewrite FindMaterial_scan_first by done.
  by destruct pre.
Qed.

(** The value returned only says whether the list is empty. *)
Lemma FindMaterial_returns ms t material :
  (FindMaterial ms t material).1 = negb (length ms =? 0)%nat.
Proof.
  unfold FindMaterial. destruct (length ms =? 0)%nat; [done|].
  by destruct (FindMaterial_scan ms t material).
Qed.

Lemma FindMaterial_miss m ms t material :
  Forall (λ m', tag m' ≠ t) (m :: ms) →
  FindMaterial (m :: ms) t material = (true, material).
Proof.
  intros Hall. unfold FindMaterial.
  by rewrite (FindMaterial_scan_miss _ _ _ Hall).
Qed.
(** The materials [PrepareScene] registers, in insertion order. *)
Definition scene_materials : list OBJECT_MATERIAL :=
  [deskMaterial; laptopMaterial; mugMaterial; floorMaterial; wallMaterial;
   lampShadeMaterial; lampBaseMaterial].

Lemma PrepareScene_materials_run p w :
  PrepareScene_materials (SceneManager_new p w)
  = Some (tt, set_m_objectMaterials scene_materials (SceneManager_new p w)).
Proof. done. Qed.

(** C1, at its failing input.  With the seven materials of the scene
    registered, a lookup of the unregistered tag ["glassTex"] returns true
    and leaves the caller's material as it was, where the header comment of
    [FindMaterial] (and the claim) has it return false: the function ends
    in [return(true)], not [return(bFound)]. *)
Theorem FindMaterial_unknown_tag_returns_true material :
  FindMaterial scene_materials "glassTex" material = (true, material)
  ∧ FindMaterial_documented scene_materials "glassTex" material
    = (false, material).
Proof. done. Qed.

End MaterialLookup.

(** ** Shadow-map set-up *)

Section ShadowMap.
Context `{Glm}.
Local Open Scope Z_scope.

(** The completeness test of [PrepareScene] runs after the default
    framebuffer was bound again: the diagnostic depends on framebuffer 0
    and not on the shadow framebuffer just configured. *)
Lemma PrepareScene_shadow_map_run w :
  ∃ w', PrepareScene_shadow_map w = Some (tt, w')
    ∧ m_shadowMapFBO w' = gl_names w (gl_generated w)
    ∧ gl_framebuffer_binding w' = 0
    ∧ gl_framebuffer_complete w' = gl_framebuffer_complete w
    ∧ cerr w' = cerr w ++ (if gl_framebuffer_complete w 0 then []
                           else [shadow_diagnostic]).
Proof.
  unfold PrepareScene_shadow_map, glGen, glBindTexture, glBindFramebuffer,
    gl_untracked, glCheckFramebufferStatus_complete, print_cerr.
  munfold. simpl.
  destruct (gl_framebuffer_complete w 0); simpl; eexists; split_and!;
    try done; simpl; by rewrite ?app_nil_r.
Qed.

End ShadowMap.

(** ** Shader loading *)

Section ShaderLoading.
Import Loader.
Local Open Scope Z_scope.

(** The calls of a complete run: [vs], [fs] and [p] are the names of the
    two shaders and of the program, [vcode] and [fcode] the two sources. *)
Definition full_run (vs fs p : Z) (vcode fcode : string) : list gl_call :=
  [glCreateShader GL_VERTEX_SHADER vs; glCreateShader GL_FRAGMENT_SHADER fs;
   glShaderSource vs vcode; glCompileShader vs;
   glShaderSource fs fcode; glCompileShader fs;
   glCreateProgram p; glAttachShader p vs; glAttachShader p fs;
   glLinkProgram p; glUseProgram p;
   glUniform1i p "bUseTexture" GL_TRUE; glUniform1i p "bUseLighting" GL_FALSE;
   glDetachShader p vs; glDetachShader p fs;
   glDeleteShader vs; glDeleteShader fs].

Lemma LoadShaders_no_vertex_file v f st :
  files st !! v = None →
  (LoadShaders v f st).1 = 0
  ∧ calls (LoadShaders v f st).2
    = calls st ++ [glCreateShader GL_VERTEX_SHADER (names st (handed_out st));
                   glCreateShader GL_FRAGMENT_SHADER (names st (S (handed_out st)))]
  ∧ m_programID (LoadShaders v f st).2 = m_programID st.
Proof.
  intros Hv. unfold LoadShaders. do 2 (simpl; rewrite ?Hv). simpl.
  by rewrite <- app_assoc.
Qed.

Lemma LoadShaders_vertex_file v f st vcode :
  files st !! v = Some vcode →
  let p := names st (S (S (handed_out st))) in
  (LoadShaders v f st).1 = p
  ∧ calls (LoadShaders v f st).2
    = calls st ++ full_run (names st (handed_out st))
                    (names st (S (handed_out st))) p vcode
                    (default "" (files st !! f))
  ∧ m_programID (LoadShaders v f st).2 = p.
Proof.
  intros Hv. unfold LoadShaders. do 2 (simpl; rewrite ?Hv). simpl.
  split_and!; [done| |done].
  rewrite <- !app_assoc. simpl. by destruct (files st !! f).
Qed.

Lemma programs_created_app cs cs' :
  programs_created (cs ++ cs') = programs_created cs ++ programs_created cs'.
Proof. apply omap_app. Qed.

(** C9.  On a driver that never hands out the name 0: [LoadShaders]
    returns 0 exactly when the vertex shader file cannot be opened, and it
    then creates no program and leaves [m_programID] alone.  When the
    vertex file opens and the fragment file does not, it goes on with the
    empty string as fragment source: it compiles both shaders, creates a
    program, attaches both, links, and returns the handle of that program
    (also stored in [m_programID]). *)
Theorem LoadShaders_file_failures v f st :
  (∀ n, names st n ≠ 0) →
  ((LoadShaders v f st).1 = 0 ↔ files st !! v = None)
  ∧ (files st !! v = None →
       programs_created (calls (LoadShaders v f st).2)
       = programs_created (calls st)
       ∧ m_programID (LoadShaders v f st).2 = m_programID st)
  ∧ (∀ vcode, files st !! v = Some vcode → files st !! f = None →
       let p := names st (S (S (handed_out st))) in
       (LoadShaders v f st).1 = p
       ∧ p ≠ 0
       ∧ m_programID (LoadShaders v f st).2 = p
       ∧ programs_created (calls (LoadShaders v f st).2)
         = programs_created (calls st) ++ [p]
       ∧ calls (LoadShaders v f st).2
         = calls st ++ full_run (names st (handed_out st))
                         (names st (S (handed_out st))) p vcode "").
Proof.
  intros Hnames. split_and!.
  - destruct (files st !! v) as [vcode|] eqn:Hv.
    + destruct (LoadShaders_vertex_file v f st vcode Hv) as (-> & _).
      split; [|done]. intros H0. by destruct (Hnames _ H0).
    + by destruct (LoadShaders_no_vertex_file v f st Hv) as (-> & _).
  - intros Hv. destruct (LoadShaders_no_vertex_file v f st Hv) as (_ & -> & ->).
    split; [|done]. rewrite programs_created_app. simpl. by rewrite app_nil_r.
  - intros vcode Hv Hf p.
    destruct (LoadShaders_vertex_file v f st vcode Hv) as (-> & -> & ->).
    rewrite Hf. split_and!; [done|apply Hnames|done| |done].
    by rewrite programs_created_app.
Qed.

End ShaderLoading.

(** ** The fragment shader *)

Section FragmentShading.
Import Fragment.
Context `{Glsl}.

(** The colour before lighting: the texture sample or the object colour. *)
Definition base_color (i : input) : vec4 gfloat :=
  if bUseTexture i
  then texture (objectTexture i)
         (vec2_mul (fragmentTextureCoordinate i) (UVscale i))
  else objectColor i.

(** [max(dot(normalized normal, normalized direction to light 0), 0)]. *)
Definition diffuse_intensity (i : input) : gfloat :=
  gmax (dot (normalize (fragmentVertexNormal i))
            (normalize (vec3_sub (position (lightSources i 0))
                                 (fragmentPosition i))))
       (glit 0 1).

(** The shading the specification describes. *)
Definition shaded (i : input) : vec4 gfloat :=
  if bUseLighting i && bool_decide (0 < numActiveLights i)%Z then
    let k := diffuse_intensity i in
    Vec4 (gmul k (v4x (base_color i)))
         (gmul (gmul k (glit 9 1)) (v4y (base_color i)))
         (gmul (gmul k (glit 1 1)) (v4z (base_color i)))
         (v4w (base_color i))
  else base_color i.

(** What of the inputs the shading may depend on: of the light array only
    the position of [lightSources[0]]; neither the material nor the view
    position. *)
Definition relevant (i : input) :=
  (fragmentPosition i, fragmentVertexNormal i, fragmentTextureCoordinate i,
   bUseTexture i, bUseLighting i, objectColor i, objectTexture i, UVscale i,
   numActiveLights i, position (lightSources i 0)).

(** C4.  The colour [main] writes is the one the specification describes:
    with lighting on and at least one active light, the warm tint
    [(k, k*0.9, k*0.1)] times the RGB of the texture sample or object
    colour, with its alpha, where [k] is the clamped cosine towards
    [lightSources[0].position]; otherwise the sample or colour unchanged.
    Two invocations that differ only in [lightSources[1..7]], in the other
    fields of [lightSources[0]], in the material or in the view position
    write the same colour. *)
Theorem main_shading i :
  main i = shaded i
  ∧ ∀ i', relevant i' = relevant i → main i' = main i.
Proof.
  assert (∀ j, main j = shaded j) as Hmain.
  { intros j. unfold main, shaded, base_color, diffuse_intensity.
    destruct (bUseLighting j), (bool_decide (0 < numActiveLights j)%Z),
      (bUseTexture j); done. }
  split; [done|]. intros i' Hrel. rewrite !Hmain.
  unfold relevant in Hrel.
  injection Hrel as Hp Hn Ht Hut Hul Hc Hs Huv Hnum Hpos.
  unfold shaded, base_color, diffuse_intensity.
  by rewrite Hp, Hn, Ht, Hut, Hul, Hc, Hs, Huv, Hnum, Hpos.
Qed.

End FragmentShading.

(** * Concrete runs *)

(** C2 on a scene with both shader managers: the hypotheses of the theorem
    hold there. *)
Lemma depth_and_lit_pass_on_scene :
  ∃ w1 w2,
    RenderDepthPass light_space scene_with_shaders = Some (tt, w1)
    ∧ RenderScene light_space w1 = Some (tt, w2)
    ∧ gl_draws w1 = gl_draws scene_with_shaders
                    ++ (draw_of DepthShader <$> depth_pass_objects)
    ∧ gl_draws w2 = gl_draws w1 ++ (draw_of MainShader <$> lit_pass_objects)
    ∧ depth_pass_objects ≡ₚ lit_pass_objects.
Proof.
  apply (depth_and_lit_pass_draw_the_same_objects light_space scene_with_shaders).
  - by eexists.
  - by eexists.
  - by vm_compute.
Defined.

(** C4 on the desk fragment: the two invocations agree on what is
    relevant and write the same colour. *)
Lemma main_shading_on_desk_fragment :
  Fragment.main
    (desk_fragment (light_at (gvec3 0 0 0) (gvec3 10 0 0) (GLit 9 1))
       (GLit 5 1) (GLit 10 0) (gvec3 0 50 150))
  = Fragment.main
      (desk_fragment (light_at (gvec3 (-50) 60 80) (gvec3 3 5 10) (GLit 7 1))
         (GLit 9 1) (GLit 320 1) (gvec3 0 0 0)).
Proof.
  apply (proj2 (main_shading
    (desk_fragment (light_at (gvec3 (-50) 60 80) (gvec3 3 5 10) (GLit 7 1))
       (GLit 9 1) (GLit 320 1) (gvec3 0 0 0)))).
  reflexivity.
Defined.

(** C5 as stated fails: on a scene whose key colour was just set
    ([bUseTexture] is 0) and whose registry is empty, [SetShaderTexture]
    with an unknown tag returns and [bUseTexture] is 1 afterwards. *)
Lemma SetShaderTexture_unknown_tag_sets_bUseTexture :
  occupied key_colored = []
  ∧ uniform_of MainShader "bUseTexture" key_colored = Some (UInt 0)
  ∧ is_Some (SetShaderTexture "brickTex" key_colored)
  ∧ uniform_of MainShader "bUseTexture"
      (after (SetShaderTexture "brickTex") key_colored) = Some (UInt 1).
Proof.
  split_and!; [vm_compute; reflexivity..| |vm_compute; reflexivity].
  vm_compute. by eexists.
Qed.

(** C5 as amended, on the same scene. *)
Lemma SetShaderTexture_unknown_tag_on_scene :
  ∃ w', SetShaderTexture "brickTex" key_colored = Some (tt, w')
    ∧ w' = uploaded MainShader "bUseTexture" (UInt 1) key_colored
    ∧ gl_active_texture w' = gl_active_texture key_colored
    ∧ gl_texture_binding w' = gl_texture_binding key_colored
    ∧ uniform_of MainShader "objectTexture" w'
      = uniform_of MainShader "objectTexture" key_colored
    ∧ (∀ name, name ≠ "bUseTexture" →
         uniform_of MainShader name w' = uniform_of MainShader name key_colored)
    ∧ (∀ name, uniform_of DepthShader name w'
               = uniform_of DepthShader name key_colored)
    ∧ uniform_of MainShader "bUseTexture" w'
      = (λ _, UInt 1) <$> m_pShaderManager key_colored.
Proof.
  apply (SetShaderTexture_unknown_tag "brickTex" key_colored).
  - by vm_compute.
  - vm_compute. apply not_elem_of_nil.
Defined.

(** C6 as stated fails: with sixteen textures loaded the table is full,
    and a seventeenth load of a file that decodes with three channels
    writes past its end. *)
Lemma CreateGLTexture_full_table :
  m_loadedTextures sixteen_loaded = 16%Z
  ∧ capacity sixteen_loaded = 16%Z
  ∧ loadable sixteen_loaded "tex16.jpg" = true
  ∧ CreateGLTexture "tex16.jpg" "tag16" sixteen_loaded = None.
Proof. by vm_compute. Qed.

(** C6 as amended, on the first load of a new scene. *)
Lemma CreateGLTexture_registry_on_new_scene :
  ∃ w', CreateGLTexture "tex0.jpg" "tag0" new_scene = Some (true, w')
    ∧ m_textureIDs w'
      = <[Z.to_nat (m_loadedTextures new_scene) :=
            {| tex_tag := "tag0";
               ID := gl_names new_scene (gl_generated new_scene) |}]>
          (m_textureIDs new_scene)
    ∧ occupied w'
      = occupied new_scene
        ++ [{| tex_tag := "tag0";
               ID := gl_names new_scene (gl_generated new_scene) |}]
    ∧ m_loadedTextures w' = (m_loadedTextures new_scene + 1)%Z.
Proof.
  apply (proj2 (proj2 (CreateGLTexture_registry "tex0.jpg" "tag0" new_scene))).
  - by vm_compute.
  - by vm_compute.
Defined.



(** C8, at its failing input.  The driver reports every framebuffer but
    the default one incomplete; the shadow-map block of [PrepareScene]
    returns, the shadow framebuffer it configured is incomplete, and nothing
    was written to [std::cerr]: the status was read after
    [glBindFramebuffer(GL_FRAMEBUFFER, 0)], so it is the default
    framebuffer's. *)
Theorem PrepareScene_misses_incomplete_shadow_framebuffer :
  is_Some (PrepareScene_shadow_map only_default_complete)
  ∧ gl_framebuffer_complete only_default_complete
      (m_shadowMapFBO (after PrepareScene_shadow_map only_default_complete))
    = false
  ∧ gl_framebuffer_binding (after PrepareScene_shadow_map only_default_complete)
    = 0%Z
  ∧ cerr (after PrepareScene_shadow_map only_default_complete)
    = cerr only_default_complete.
Proof.
  split_and!; [|vm_compute; reflexivity..].
  vm_compute. by eexists.
Qed.

(** C9 on a disk that holds the vertex shader only. *)
Lemma LoadShaders_without_fragment_file :
  (Loader.LoadShaders "depthVertexShader.glsl" "depthFragmentShader.glsl"
     (Loader.start {["depthVertexShader.glsl" := "void main() {}"]})).1 = 3%Z
  ∧ Loader.programs_created
      (Loader.calls
         (Loader.LoadShaders "depthVertexShader.glsl" "depthFragmentShader.glsl"
            (Loader.start {["depthVertexShader.glsl" := "void main() {}"]})).2)
    = [3%Z]
  ∧ Loader.calls
      (Loader.LoadShaders "depthVertexShader.glsl" "depthFragmentShader.glsl"
         (Loader.start {["depthVertexShader.glsl" := "void main() {}"]})).2
    = full_run 1 2 3 "void main() {}" "".
Proof.
  destruct (LoadShaders_file_failures
              "depthVertexShader.glsl" "depthFragmentShader.glsl"
              (Loader.start {["depthVertexShader.glsl" := "void main() {}"]}))
    as (_ & _ & Hrun).
  { intros n. simpl. lia. }
  destruct (Hrun "void main() {}") as (Hr & _ & _ & Hp & Hc); [done..|].
  rewrite Hr, Hp, Hc. by split_and!.
Defined.

(** C10 on a scene constructed with a null shader manager. *)
Lemma null_manager_no_effect_on_new_scene :
  SetTransformations KEY_COLOR (flit 0 1) (flit 0 1) (flit 0 1) KEY_COLOR new_scene
    = Some (tt, new_scene)
  ∧ SetShaderColor (flit 1 0) (flit 1 0) (flit 1 0) (flit 1 0) new_scene
    = Some (tt, new_scene)
  ∧ SetShaderTexture "deskTexture" new_scene = Some (tt, new_scene)
  ∧ SetTextureUVScale (flit 1 0) (flit 1 0) new_scene = Some (tt, new_scene).
Proof.
  apply (null_manager_no_effect new_scene). reflexivity.
Defined.
